(** * Vacancy: a validated job-posting record

    Shallow embedding of [src/models/Vacancy.py]: the class [Vacancy], its
    constructor with the null defaults and [_validate_data], the rendering
    [__str__], the export [to_dict] and the five comparison methods.

    Python side of the model
    - [int] is unbounded: [Z].  [bool] is a subclass of [int].
    - [float] is IEEE 754 binary64: [spec_float] of the standard library
      (precision 53, maximal exponent 1024), with its NaN and infinities.
    - [str] is the UTF-8 encoding of the text, a [string]; equality of texts
      is equality of their encodings.
    - an exception is a value of [exn]; a call that may raise returns a
      [result]. *)

From Stdlib Require Import ZArith Lia List String Ascii DecimalString.
From Stdlib Require Import Floats.SpecFloat.
From stdpp Require Import base option strings gmap.

Local Open Scope string_scope.
Local Open Scope Z_scope.

(** ** Exceptions and results *)

Inductive exn : Type :=
| ValueError (msg : string)
| OverflowError (msg : string).

Inductive result (A : Type) : Type :=
| Ok (a : A)
| Raise (e : exn).

Arguments Ok {A} a.
Arguments Raise {A} e.

#[global] Instance result_ret : MRet result := @Ok.

#[global] Instance result_bind : MBind result :=
  fun A B (k : A -> result B) (m : result A) =>
    match m with
    | Ok a => k a
    | Raise e => Raise e
    end.

(** ** Python values *)

(** The instances of [int]: [True] and [False] are among them. *)
Inductive pyint : Type :=
| PBool (b : bool)
| PInt (n : Z).

(** The instances of [(int, float)]. *)
Inductive pynum : Type :=
| NInt (i : pyint)
| NFloat (f : spec_float).

(** What a caller may pass for a field. *)
#[warnings="-register-all"] Inductive value : Type :=
| VNone
| VNum (x : pynum)
| VStr (s : string)
| VList (items : list value).

Inductive pytype : Type :=
| T_int
| T_str
| T_int_float.

(** [isinstance(v, t)] *)
Definition isinstance (v : value) (t : pytype) : bool :=
  match t, v with
  | T_int, VNum (NInt _) => true
  | T_str, VStr _ => true
  | T_int_float, VNum _ => true
  | _, _ => false
  end.

(** [v is not None] *)
Definition is_not_None (v : value) : bool :=
  match v with
  | VNone => false
  | _ => true
  end.

Definition int_val (i : pyint) : Z :=
  match i with
  | PBool b => Z.b2z b
  | PInt n => n
  end.

Definition zero : pynum := NInt (PInt 0).

(** ** Numbers: comparison and [int()] *)

Definition prec : Z := 53.
Definition emax : Z := 1024.

Definition signed (s : bool) (m : positive) : Z :=
  if s then Z.neg m else Z.pos m.

(** An [int] against a [float]: Python compares the two exactly, the
    integer is not rounded to a float first.  The float [±m·2^e] is scaled
    to an integer when [0 <= e], the integer is scaled otherwise. *)
Definition int_float_compare (n : Z) (f : spec_float) : option comparison :=
  match f with
  | S754_nan => None
  | S754_infinity s => Some (if s then Gt else Lt)
  | S754_zero _ => Some (n ?= 0)
  | S754_finite s m e =>
      Some (if 0 <=? e
            then n ?= Z.shiftl (signed s m) e
            else Z.shiftl n (- e) ?= signed s m)
  end.

(** The three-way comparison behind [==], [!=], [<], [<=], [>], [>=] on
    numbers; [None] when an operand is NaN. *)
Definition num_compare (x y : pynum) : option comparison :=
  match x, y with
  | NInt i, NInt j => Some (int_val i ?= int_val j)
  | NInt i, NFloat g => int_float_compare (int_val i) g
  | NFloat f, NInt j => CompOpp <$> int_float_compare (int_val j) f
  | NFloat f, NFloat g => SFcompare f g
  end.

Definition py_eq (x y : pynum) : bool :=
  match num_compare x y with
  | Some Eq => true
  | _ => false
  end.

Definition py_ne (x y : pynum) : bool := negb (py_eq x y).

Definition py_lt (x y : pynum) : bool :=
  match num_compare x y with
  | Some Lt => true
  | _ => false
  end.

Definition py_le (x y : pynum) : bool :=
  match num_compare x y with
  | Some Lt | Some Eq => true
  | _ => false
  end.

Definition py_gt (x y : pynum) : bool :=
  match num_compare x y with
  | Some Gt => true
  | _ => false
  end.

Definition py_ge (x y : pynum) : bool :=
  match num_compare x y with
  | Some Gt | Some Eq => true
  | _ => false
  end.

(** [int(x)]: the identity on an [int] (1 and 0 on [True] and [False]); on
    a float the magnitude [m·2^e] is shifted, which drops the fraction
    bits, and the sign is put back; NaN and the infinities raise. *)
Definition py_int (x : pynum) : result Z :=
  match x with
  | NInt i => Ok (int_val i)
  | NFloat (S754_zero _) => Ok 0
  | NFloat (S754_finite s m e) =>
      let a := Z.shiftl (Z.pos m) e in
      Ok (if s then - a else a)
  | NFloat S754_nan => Raise (ValueError "cannot convert float NaN to integer")
  | NFloat (S754_infinity _) =>
      Raise (OverflowError "cannot convert float infinity to integer")
  end.

(** The decimal digits of an integer, after a minus sign when it is
    negative. *)
Definition str_of_Z (n : Z) : string := NilZero.string_of_int (Z.to_int n).

(** [sys.get_int_max_str_digits()], at CPython's default. *)
Definition int_max_str_digits : Z := 4300.

(** [str(n)] for an integer [n], which is also how an f-string field
    formats it: CPython refuses to convert an integer of more than
    [int_max_str_digits] decimal digits. *)
Definition py_str (n : Z) : result string :=
  if 10 ^ int_max_str_digits <=? Z.abs n
  then Raise (ValueError "Exceeds the limit (4300 digits) for integer string conversion; use sys.set_int_max_str_digits() to increase the limit")
  else Ok (str_of_Z n).

Arguments py_str : simpl never.

(** An instance of [int] in an f-string field: [True], [False] or the
    decimal digits. *)
Definition format_int (i : pyint) : result string :=
  match i with
  | PBool true => Ok "True"
  | PBool false => Ok "False"
  | PInt n => py_str n
  end.

(** The float literal [p/q]: both are below [2^53], so the correctly
    rounded quotient is the float Python reads from the decimal. *)
Definition float_of_Z (n : Z) : spec_float := binary_normalize prec emax n 0 false.

Definition float_of_ratio (p q : Z) : spec_float :=
  SFdiv prec emax (float_of_Z p) (float_of_Z q).

(** ** The class *)

(** [self] while [__init__] runs: the nine attributes as assigned, before
    [_validate_data] has looked at them. *)
Record Attributes : Type := {
  attr_id_num : value;
  attr_vacancy_name : value;
  attr_company_name : value;
  attr_description : value;
  attr_salary_from : value;
  attr_salary_to : value;
  attr_salary_currency : value;
  attr_area : value;
  attr_url : value
}.

(** A constructed [Vacancy].  The field types are what [_validate_data]
    has checked with [isinstance]; the methods below read the attributes
    at these types.  Validation stores nothing new: the record holds the
    attributes it was given ([validate_first_failure]), and every record is
    the result of some constructor call ([constructed_all]). *)
Record Vacancy : Type := {
  id_num : pyint;
  vacancy_name : string;
  company_name : string;
  description : string;
  salary_from : pynum;
  salary_to : pynum;
  salary_currency : string;
  area : string;
  url : string
}.

(** [if not isinstance(v, int): raise ValueError(msg)] *)
Definition check_int (v : value) (msg : string) : result pyint :=
  match v with
  | VNum (NInt i) => Ok i
  | _ => Raise (ValueError msg)
  end.

(** [if not isinstance(v, str): raise ValueError(msg)] *)
Definition check_str (v : value) (msg : string) : result string :=
  match v with
  | VStr s => Ok s
  | _ => Raise (ValueError msg)
  end.

(** [if not isinstance(v, (int, float)): raise ValueError(msg)] *)
Definition check_int_float (v : value) (msg : string) : result pynum :=
  match v with
  | VNum x => Ok x
  | _ => Raise (ValueError msg)
  end.

Definition _validate_data (self : Attributes) : result Vacancy :=
  i ← check_int (attr_id_num self) "ID должно быть целым числом";
  vn ← check_str (attr_vacancy_name self) "Название вакансии должно быть строкой";
  cn ← check_str (attr_company_name self) "Название компании должно быть строкой";
  d ← check_str (attr_description self) "Описание вакансии должно быть строкой";
  sf ← check_int_float (attr_salary_from self)
         "Зарплата 'from' должна быть числом (целым или десятичным)";
  st ← check_int_float (attr_salary_to self)
         "Зарплата 'to' должна быть числом (целым или десятичным) или None";
  sc ← check_str (attr_salary_currency self) "Валюта зарплаты должна быть строкой";
  a ← check_str (attr_area self) "Местоположение должно быть строкой";
  u ← check_str (attr_url self) "URL должен быть строкой";
  mret {| id_num := i; vacancy_name := vn; company_name := cn; description := d;
          salary_from := sf; salary_to := st; salary_currency := sc;
          area := a; url := u |}.

Definition __init__ (id_num vacancy_name company_name description
                     salary_from salary_to salary_currency area url : value)
  : result Vacancy :=
  let self :=
    {| attr_id_num := id_num;
       attr_vacancy_name := vacancy_name;
       attr_company_name := company_name;
       attr_description := description;
       attr_salary_from :=
         if is_not_None salary_from then salary_from else VNum zero;
       attr_salary_to :=
         if is_not_None salary_to then salary_to else VNum zero;
       attr_salary_currency :=
         if is_not_None salary_currency then salary_currency
         else VStr "Нет данных";
       attr_area := area;
       attr_url := url |} in
  _validate_data self.

Definition nl : string := String "010"%char "".

(** The local [from_part] of [__str__]. *)
Definition from_part (self : Vacancy) : result string :=
  if py_ne (salary_from self) zero
  then n ← py_int (salary_from self); s ← py_str n; mret ("От " +:+ s +:+ " ")
  else mret "".

(** The local [to_part] of [__str__]. *)
Definition to_part (self : Vacancy) : result string :=
  if py_ne (salary_to self) zero
  then n ← py_int (salary_to self); s ← py_str n; mret ("До " +:+ s +:+ " ")
  else mret "".

(** The local [salary_range] of [__str__]. *)
Definition salary_range (self : Vacancy) : result string :=
  if py_eq (salary_from self) zero && py_eq (salary_to self) zero
  then mret "Информации нет"
  else
    from_part ← from_part self;
    to_part ← to_part self;
    mret (from_part +:+ to_part +:+ salary_currency self).

(** The seven lines of the rendering around the formatted id and the
    salary phrase. *)
Definition render (self : Vacancy) (id_text salary_range : string) : string :=
  "ID: " +:+ id_text +:+ nl +:+
  "Название вакансии: " +:+ vacancy_name self +:+ nl +:+
  "Название компании: " +:+ company_name self +:+ nl +:+
  "Описание: " +:+ description self +:+ nl +:+
  "Зарплата: " +:+ salary_range +:+ nl +:+
  "Местоположение: " +:+ area self +:+ nl +:+
  "URL: " +:+ url self.

(** The salary phrase is computed first; the returned f-string then
    formats its fields from left to right, the id first. *)
Definition __str__ (self : Vacancy) : result string :=
  salary_range ← salary_range self;
  id_text ← format_int (id_num self);
  mret (render self id_text salary_range).

Definition to_dict (self : Vacancy) : gmap string value :=
  list_to_map
    [ ("id_num", VNum (NInt (id_num self)));
      ("vacancy_name", VStr (vacancy_name self));
      ("company_name", VStr (company_name self));
      ("description", VStr (description self));
      ("salary_from", VNum (salary_from self));
      ("salary_to", VNum (salary_to self));
      ("salary_currency", VStr (salary_currency self));
      ("area", VStr (area self));
      ("url", VStr (url self)) ].

(** [x and y and z] on three booleans is their conjunction. *)
Definition __eq__ (self other : Vacancy) : bool :=
  let are_salaries_equal :=
    py_eq (salary_from self) (salary_from other) &&
    py_eq (salary_to self) (salary_to other) &&
    String.eqb (salary_currency self) (salary_currency other) in
  are_salaries_equal.

Definition __lt__ (self other : Vacancy) : bool :=
  let result := py_lt (salary_from self) (salary_from other) in
  result.

Definition __le__ (self other : Vacancy) : bool :=
  let result := py_le (salary_from self) (salary_from other) in
  result.

Definition __gt__ (self other : Vacancy) : bool :=
  let result := py_gt (salary_to self) (salary_to other) in
  result.

Definition __ge__ (self other : Vacancy) : bool :=
  let result := py_ge (salary_to self) (salary_to other) in
  result.

(** ** Fields and the constructor call *)

Inductive field : Type :=
| f_id_num
| f_vacancy_name
| f_company_name
| f_description
| f_salary_from
| f_salary_to
| f_salary_currency
| f_area
| f_url.

(** The parameter and dictionary key of a field. *)
Definition field_name (f : field) : string :=
  match f with
  | f_id_num => "id_num"
  | f_vacancy_name => "vacancy_name"
  | f_company_name => "company_name"
  | f_description => "description"
  | f_salary_from => "salary_from"
  | f_salary_to => "salary_to"
  | f_salary_currency => "salary_currency"
  | f_area => "area"
  | f_url => "url"
  end.

(** The type [_validate_data] asks of a field. *)
Definition declared_type (f : field) : pytype :=
  match f with
  | f_id_num => T_int
  | f_salary_from | f_salary_to => T_int_float
  | _ => T_str
  end.

(** The message of the [ValueError] raised at the check of a field. *)
Definition message (f : field) : string :=
  match f with
  | f_id_num => "ID должно быть целым числом"
  | f_vacancy_name => "Название вакансии должно быть строкой"
  | f_company_name => "Название компании должно быть строкой"
  | f_description => "Описание вакансии должно быть строкой"
  | f_salary_from => "Зарплата 'from' должна быть числом (целым или десятичным)"
  | f_salary_to => "Зарплата 'to' должна быть числом (целым или десятичным) или None"
  | f_salary_currency => "Валюта зарплаты должна быть строкой"
  | f_area => "Местоположение должно быть строкой"
  | f_url => "URL должен быть строкой"
  end.

Definition attr (self : Attributes) (f : field) : value :=
  match f with
  | f_id_num => attr_id_num self
  | f_vacancy_name => attr_vacancy_name self
  | f_company_name => attr_company_name self
  | f_description => attr_description self
  | f_salary_from => attr_salary_from self
  | f_salary_to => attr_salary_to self
  | f_salary_currency => attr_salary_currency self
  | f_area => attr_area self
  | f_url => attr_url self
  end.

(** The accessor [v.f] of a constructed record, as a Python value. *)
Definition getattr (v : Vacancy) (f : field) : value :=
  match f with
  | f_id_num => VNum (NInt (id_num v))
  | f_vacancy_name => VStr (vacancy_name v)
  | f_company_name => VStr (company_name v)
  | f_description => VStr (description v)
  | f_salary_from => VNum (salary_from v)
  | f_salary_to => VNum (salary_to v)
  | f_salary_currency => VStr (salary_currency v)
  | f_area => VStr (area v)
  | f_url => VStr (url v)
  end.

(** The constructor call on a list of nine arguments. *)
Definition construct (args : Attributes) : result Vacancy :=
  __init__ (attr_id_num args) (attr_vacancy_name args) (attr_company_name args)
           (attr_description args) (attr_salary_from args) (attr_salary_to args)
           (attr_salary_currency args) (attr_area args) (attr_url args).

(** A validly constructed record: some call of the constructor returned it. *)
Definition constructed (v : Vacancy) : Prop :=
  exists args : Attributes, construct args = Ok v.

(** ** The statements' vocabulary *)

(** The default a null argument is replaced by, for the fields that have one. *)
Definition null_default (f : field) : option value :=
  match f with
  | f_salary_from | f_salary_to => Some (VNum (NInt (PInt 0)))
  | f_salary_currency => Some (VStr "Нет данных")
  | _ => None
  end.

(** The input value of a field after the null coercion. *)
Definition coerced (args : Attributes) (f : field) : value :=
  match null_default f, attr args f with
  | Some d, VNone => d
  | _, x => x
  end.

Definition with_defaults (args : Attributes) : Attributes :=
  {| attr_id_num := coerced args f_id_num;
     attr_vacancy_name := coerced args f_vacancy_name;
     attr_company_name := coerced args f_company_name;
     attr_description := coerced args f_description;
     attr_salary_from := coerced args f_salary_from;
     attr_salary_to := coerced args f_salary_to;
     attr_salary_currency := coerced args f_salary_currency;
     attr_area := coerced args f_area;
     attr_url := coerced args f_url |}.

Definition well_typed (self : Attributes) (f : field) : bool :=
  isinstance (attr self f) (declared_type f).

(** The first field of a sequence of checks whose value has the wrong type. *)
Definition first_failure (order : list field) (self : Attributes) : option field :=
  List.find (fun f => negb (well_typed self f)) order.

(** The checks in the order of the statements of [_validate_data]. *)
Definition attribute_order : list field :=
  [f_id_num; f_vacancy_name; f_company_name; f_description;
   f_salary_from; f_salary_to; f_salary_currency; f_area; f_url].

(** The checks in the order the specification lists them: the integer
    check, the six text checks, the two numeric checks. *)
Definition listed_order : list field :=
  [f_id_num; f_vacancy_name; f_company_name; f_description;
   f_salary_currency; f_area; f_url; f_salary_from; f_salary_to].

Definition is_nan (x : pynum) : bool :=
  match x with
  | NFloat S754_nan => true
  | _ => false
  end.

Definition is_finite (x : pynum) : bool :=
  match x with
  | NFloat S754_nan | NFloat (S754_infinity _) => false
  | _ => true
  end.

(** The integer part of a finite number, rounded toward zero: [Z.quot] is
    the division that truncates.  A finite float is [±m·2^e]. *)
Definition truncate (x : pynum) : option Z :=
  match x with
  | NInt i => Some (int_val i)
  | NFloat (S754_zero _) => Some 0
  | NFloat (S754_finite s m e) =>
      Some (Z.quot (signed s m * 2 ^ Z.max 0 e) (2 ^ Z.max 0 (- e)))
  | NFloat _ => None
  end.

(** The salary phrase as the specification words it, [nf] and [nt] being
    the truncated bounds. *)
Definition from_clause (v : Vacancy) (nf : Z) : string :=
  if py_eq (salary_from v) zero then "" else "От " +:+ str_of_Z nf +:+ " ".

Definition to_clause (v : Vacancy) (nt : Z) : string :=
  if py_eq (salary_to v) zero then "" else "До " +:+ str_of_Z nt +:+ " ".

Definition salary_phrase (v : Vacancy) (nf nt : Z) : string :=
  if py_eq (salary_from v) zero && py_eq (salary_to v) zero
  then "Информации нет"
  else from_clause v nf +:+ to_clause v nt +:+ salary_currency v.

(** An integer of at most 4300 decimal digits. *)
Definition fits (n : Z) : bool := Z.abs n <? 10 ^ 4300.

Arguments fits : simpl never.

(** A number [int()] accepts and whose integer part has at most 4300
    digits. *)
Definition renderable (x : pynum) : bool :=
  match truncate x with
  | Some n => fits n
  | None => false
  end.

Definition fits_id (i : pyint) : bool :=
  match i with
  | PBool _ => true
  | PInt n => fits n
  end.

(** The text of an id: [True], [False] or the decimal digits. *)
Definition id_text (i : pyint) : string :=
  match i with
  | PBool true => "True"
  | PBool false => "False"
  | PInt n => str_of_Z n
  end.

(** The three exceptions the rendering can raise. *)
Definition rendering_error (e : exn) : Prop :=
  e = ValueError "cannot convert float NaN to integer" \/
  e = OverflowError "cannot convert float infinity to integer" \/
  e = ValueError "Exceeds the limit (4300 digits) for integer string conversion; use sys.set_int_max_str_digits() to increase the limit".

(** The attributes a record holds, as constructor arguments. *)
Definition args_of (v : Vacancy) : Attributes :=
  {| attr_id_num := VNum (NInt (id_num v));
     attr_vacancy_name := VStr (vacancy_name v);
     attr_company_name := VStr (company_name v);
     attr_description := VStr (description v);
     attr_salary_from := VNum (salary_from v);
     attr_salary_to := VNum (salary_to v);
     attr_salary_currency := VStr (salary_currency v);
     attr_area := VStr (area v);
     attr_url := VStr (url v) |}.

(** ** Sample calls and records *)

Definition num (n : Z) : value := VNum (NInt (PInt n)).

Definition nan : spec_float := S754_nan.

(** The float Python reads from [49999.9]. *)
Definition f49999_9 : spec_float := float_of_ratio 499999 10.

Definition args_usd : Attributes :=
  {| attr_id_num := num 1;
     attr_vacancy_name := VStr "Developer";
     attr_company_name := VStr "Acme";
     attr_description := VStr "Builds things";
     attr_salary_from := num 50000;
     attr_salary_to := num 70000;
     attr_salary_currency := VStr "USD";
     attr_area := VStr "Moscow";
     attr_url := VStr "https://example.org/1" |}.

Definition v_usd : Vacancy :=
  {| id_num := PInt 1;
     vacancy_name := "Developer";
     company_name := "Acme";
     description := "Builds things";
     salary_from := NInt (PInt 50000);
     salary_to := NInt (PInt 70000);
     salary_currency := "USD";
     area := "Moscow";
     url := "https://example.org/1" |}.

(** Another posting with the same salary. *)
Definition args_other : Attributes :=
  {| attr_id_num := num 2;
     attr_vacancy_name := VStr "Tester";
     attr_company_name := VStr "Acme";
     attr_description := VStr "Builds things";
     attr_salary_from := num 50000;
     attr_salary_to := num 70000;
     attr_salary_currency := VStr "USD";
     attr_area := VStr "Moscow";
     attr_url := VStr "https://example.org/2" |}.

Definition v_other : Vacancy :=
  {| id_num := PInt 2;
     vacancy_name := "Tester";
     company_name := "Acme";
     description := "Builds things";
     salary_from := NInt (PInt 50000);
     salary_to := NInt (PInt 70000);
     salary_currency := "USD";
     area := "Moscow";
     url := "https://example.org/2" |}.

(** The three nullable arguments all null. *)
Definition args_null : Attributes :=
  {| attr_id_num := num 3;
     attr_vacancy_name := VStr "Intern";
     attr_company_name := VStr "Acme";
     attr_description := VStr "Learns";
     attr_salary_from := VNone;
     attr_salary_to := VNone;
     attr_salary_currency := VNone;
     attr_area := VStr "Kazan";
     attr_url := VStr "https://example.org/3" |}.

(** [salary_from = float("nan")] *)
Definition args_nan : Attributes :=
  {| attr_id_num := num 4;
     attr_vacancy_name := VStr "Analyst";
     attr_company_name := VStr "Acme";
     attr_description := VStr "Counts";
     attr_salary_from := VNum (NFloat nan);
     attr_salary_to := num 0;
     attr_salary_currency := VStr "RUB";
     attr_area := VStr "Omsk";
     attr_url := VStr "https://example.org/4" |}.

Definition v_nan : Vacancy :=
  {| id_num := PInt 4;
     vacancy_name := "Analyst";
     company_name := "Acme";
     description := "Counts";
     salary_from := NFloat nan;
     salary_to := NInt (PInt 0);
     salary_currency := "RUB";
     area := "Omsk";
     url := "https://example.org/4" |}.

(** [salary_from = 49999.9] *)
Definition args_float : Attributes :=
  {| attr_id_num := num 5;
     attr_vacancy_name := VStr "Developer";
     attr_company_name := VStr "Acme";
     attr_description := VStr "Builds things";
     attr_salary_from := VNum (NFloat f49999_9);
     attr_salary_to := num 0;
     attr_salary_currency := VStr "USD";
     attr_area := VStr "Moscow";
     attr_url := VStr "https://example.org/5" |}.

Definition v_float : Vacancy :=
  {| id_num := PInt 5;
     vacancy_name := "Developer";
     company_name := "Acme";
     description := "Builds things";
     salary_from := NFloat f49999_9;
     salary_to := NInt (PInt 0);
     salary_currency := "USD";
     area := "Moscow";
     url := "https://example.org/5" |}.

(** [id_num = True] *)
Definition args_bool_id : Attributes :=
  {| attr_id_num := VNum (NInt (PBool true));
     attr_vacancy_name := VStr "Developer";
     attr_company_name := VStr "Acme";
     attr_description := VStr "Builds things";
     attr_salary_from := num 50000;
     attr_salary_to := num 70000;
     attr_salary_currency := VStr "USD";
     attr_area := VStr "Moscow";
     attr_url := VStr "https://example.org/6" |}.

(** A text for [salary_from] and a number for [salary_currency]. *)
Definition args_two_wrong : Attributes :=
  {| attr_id_num := num 7;
     attr_vacancy_name := VStr "Developer";
     attr_company_name := VStr "Acme";
     attr_description := VStr "Builds things";
     attr_salary_from := VStr "a lot";
     attr_salary_to := num 70000;
     attr_salary_currency := num 840;
     attr_area := VStr "Moscow";
     attr_url := VStr "https://example.org/7" |}.

(** A posting with the given salary fields. *)
Definition with_salary (sf st : pynum) (currency : string) : Vacancy :=
  {| id_num := PInt 8;
     vacancy_name := "Developer";
     company_name := "Acme";
     description := "Builds things";
     salary_from := sf;
     salary_to := st;
     salary_currency := currency;
     area := "Moscow";
     url := "https://example.org/8" |}.

Definition whole (n : Z) : pynum := NInt (PInt n).

(** ** Exact values of numbers *)

(** A number as a multiple of [2^-1074], the spacing of the smallest
    binary64 floats, or an infinity.  Every integer and every finite
    binary64 float is such a multiple. *)
Inductive ext : Type :=
| NegInf
| Fin (z : Z)
| PosInf.

Definition ext_compare (a b : ext) : comparison :=
  match a, b with
  | NegInf, NegInf => Eq
  | NegInf, _ => Lt
  | Fin _, NegInf => Gt
  | Fin x, Fin y => x ?= y
  | Fin _, PosInf => Lt
  | PosInf, PosInf => Eq
  | PosInf, _ => Gt
  end.

(** The value of a number; none for NaN. *)
Definition num_value (x : pynum) : option ext :=
  match x with
  | NInt i => Some (Fin (int_val i * 2 ^ 1074))
  | NFloat (S754_zero _) => Some (Fin 0)
  | NFloat (S754_infinity s) => Some (if s then NegInf else PosInf)
  | NFloat S754_nan => None
  | NFloat (S754_finite s m e) => Some (Fin (signed s m * 2 ^ (e + 1074)))
  end.

(** The floats Python has are the valid binary64 ones: a finite float has
    its canonical mantissa and exponent. *)
Definition valid_num (x : pynum) : bool :=
  match x with
  | NInt _ => true
  | NFloat f => valid_binary prec emax f
  end.

Definition valid_salaries (v : Vacancy) : bool :=
  valid_num (salary_from v) && valid_num (salary_to v).

(** The fields whose argument may be null. *)
Definition nullable (f : field) : bool :=
  match null_default f with
  | Some _ => true
  | None => false
  end.

(** The salary of [v_usd] given as floats. *)
Definition v_usd_float : Vacancy :=
  with_salary (NFloat (float_of_Z 50000)) (NFloat (float_of_Z 70000)) "USD".

(** Three postings with rising salary bounds: 100 to 300, 150.05 to 500
    and 200 to 700.0. *)
Definition v_low : Vacancy := with_salary (whole 100) (whole 300) "USD".

Definition v_mid : Vacancy :=
  with_salary (NFloat (float_of_ratio 3001 20)) (whole 500) "USD".

Definition v_high : Vacancy :=
  with_salary (whole 200) (NFloat (float_of_Z 700)) "USD".

(** A posting whose id has 4301 digits, and one whose salary_from has. *)
Definition args_long_id : Attributes :=
  {| attr_id_num := num (10 ^ 4300);
     attr_vacancy_name := VStr "Developer";
     attr_company_name := VStr "Acme";
     attr_description := VStr "Builds things";
     attr_salary_from := num 50000;
     attr_salary_to := num 70000;
     attr_salary_currency := VStr "USD";
     attr_area := VStr "Moscow";
     attr_url := VStr "https://example.org/9" |}.

Definition v_long_id : Vacancy :=
  {| id_num := PInt (10 ^ 4300);
     vacancy_name := "Developer";
     company_name := "Acme";
     description := "Builds things";
     salary_from := NInt (PInt 50000);
     salary_to := NInt (PInt 70000);
     salary_currency := "USD";
     area := "Moscow";
     url := "https://example.org/9" |}.

Definition args_long_salary : Attributes :=
  {| attr_id_num := num 10;
     attr_vacancy_name := VStr "Developer";
     attr_company_name := VStr "Acme";
     attr_description := VStr "Builds things";
     attr_salary_from := num (10 ^ 4300);
     attr_salary_to := num 0;
     attr_salary_currency := VStr "USD";
     attr_area := VStr "Moscow";
     attr_url := VStr "https://example.org/10" |}.

Definition v_long_salary : Vacancy :=
  {| id_num := PInt 10;
     vacancy_name := "Developer";
     company_name := "Acme";
     description := "Builds things";
     salary_from := NInt (PInt (10 ^ 4300));
     salary_to := NInt (PInt 0);
     salary_currency := "USD";
     area := "Moscow";
     url := "https://example.org/10" |}.

(** * Properties *)

(** ** Numbers *)

Lemma SFcompare_antisym (f g : spec_float) :
  SFcompare g f = CompOpp <$> SFcompare f g.
Proof.
  destruct f as [s1| s1 | |s1 m1 e1], g as [s2|s2| |s2 m2 e2]; simpl;
    try reflexivity; try (destruct s1; reflexivity);
    try (destruct s2; reflexivity);
    try (destruct s1, s2; reflexivity).
  destruct s1, s2; simpl; try reflexivity;
    rewrite (Z.compare_antisym e1 e2); destruct (e1 ?= e2); simpl;
    try reflexivity;
    pose proof (Pos.compare_cont_antisym m1 m2 Eq) as H; simpl in H;
    rewrite <- H; destruct (Pos.compare_cont Eq m1 m2); reflexivity.
Qed.

Lemma num_compare_antisym (x y : pynum) :
  num_compare y x = CompOpp <$> num_compare x y.
Proof.
  destruct x as [i|f], y as [j|g]; simpl.
  - now rewrite (Z.compare_antisym (int_val i) (int_val j)).
  - reflexivity.
  - destruct (int_float_compare (int_val j) f) as [[]|]; reflexivity.
  - apply SFcompare_antisym.
Qed.

Lemma py_eq_sym (x y : pynum) : py_eq x y = py_eq y x.
Proof.
  unfold py_eq. rewrite (num_compare_antisym x y).
  destruct (num_compare x y) as [[]|]; reflexivity.
Qed.

Lemma num_compare_refl (x : pynum) :
  num_compare x x = if is_nan x then None else Some Eq.
Proof.
  destruct x as [i|[s|s| |s m e]]; simpl.
  - now rewrite Z.compare_refl.
  - reflexivity.
  - destruct s; reflexivity.
  - reflexivity.
  - rewrite Z.compare_refl, Pos.compare_cont_refl. destruct s; reflexivity.
Qed.

Lemma py_eq_refl (x : pynum) : py_eq x x = negb (is_nan x).
Proof.
  unfold py_eq. rewrite num_compare_refl. destruct (is_nan x); reflexivity.
Qed.

Lemma py_eq_zero_finite (x : pynum) : py_eq x zero = true -> is_finite x = true.
Proof.
  destruct x as [i|[s|s| |s m e]]; intros H; try reflexivity.
  - destruct s; discriminate H.
  - discriminate H.
Qed.

(** On two integers the comparisons are those of [Z]. *)
Lemma py_eq_int (m n : Z) : py_eq (NInt (PInt m)) (NInt (PInt n)) = (m =? n).
Proof. unfold py_eq; simpl. rewrite Z.eqb_compare. now destruct (m ?= n). Qed.

Lemma py_lt_int (m n : Z) : py_lt (NInt (PInt m)) (NInt (PInt n)) = (m <? n).
Proof. unfold py_lt, Z.ltb; simpl. now destruct (m ?= n). Qed.

Lemma py_le_int (m n : Z) : py_le (NInt (PInt m)) (NInt (PInt n)) = (m <=? n).
Proof. unfold py_le, Z.leb; simpl. now destruct (m ?= n). Qed.

Lemma py_gt_int (m n : Z) : py_gt (NInt (PInt m)) (NInt (PInt n)) = (m >? n).
Proof. unfold py_gt, Z.gtb; simpl. now destruct (m ?= n). Qed.

Lemma py_ge_int (m n : Z) : py_ge (NInt (PInt m)) (NInt (PInt n)) = (m >=? n).
Proof. unfold py_ge, Z.geb; simpl. now destruct (m ?= n). Qed.

(** [int()] of a finite float is the quotient that truncates. *)
Lemma py_int_finite (s : bool) (m : positive) (e : Z) :
  py_int (NFloat (S754_finite s m e))
  = Ok (Z.quot (signed s m * 2 ^ Z.max 0 e) (2 ^ Z.max 0 (- e))).
Proof.
  simpl. f_equal.
  destruct (Z.le_gt_cases 0 e) as [He|He].
  - rewrite Z.shiftl_mul_pow2 by assumption.
    rewrite (Z.max_r 0 e), (Z.max_l 0 (- e)) by lia.
    rewrite Z.pow_0_r, Z.quot_1_r. destruct s; simpl; lia.
  - rewrite Z.shiftl_div_pow2 by lia.
    rewrite (Z.max_l 0 e), (Z.max_r 0 (- e)) by lia.
    rewrite Z.pow_0_r, Z.mul_1_r.
    assert (Hp : 0 < 2 ^ (- e)) by (apply Z.pow_pos_nonneg; lia).
    destruct s; simpl.
    + change (Z.neg m) with (- Z.pos m).
      rewrite Z.quot_opp_l by lia. f_equal.
      symmetry. apply Z.quot_div_nonneg; lia.
    + symmetry. apply Z.quot_div_nonneg; lia.
Qed.

Lemma py_int_truncate (x : pynum) :
  is_finite x = true -> exists n : Z, truncate x = Some n /\ py_int x = Ok n.
Proof.
  destruct x as [i|[s|s| |s m e]]; intros H; try discriminate H.
  - exists (int_val i). split; reflexivity.
  - exists 0. split; reflexivity.
  - eexists. split; [reflexivity|]. apply py_int_finite.
Qed.

Lemma py_int_not_finite (x : pynum) :
  is_finite x = false -> exists e : exn, py_int x = Raise e.
Proof.
  destruct x as [i|[s|s| |s m e]]; intros H; try discriminate H;
    eexists; reflexivity.
Qed.

(** ** The constructor *)

Lemma construct_with_defaults (args : Attributes) :
  construct args = _validate_data (with_defaults args).
Proof.
  destruct args as [a1 a2 a3 a4 a5 a6 a7 a8 a9].
  unfold construct, __init__, with_defaults, coerced; simpl.
  destruct a5, a6, a7; reflexivity.
Qed.

Lemma attr_with_defaults (args : Attributes) (f : field) :
  attr (with_defaults args) f = coerced args f.
Proof. destruct f; reflexivity. Qed.

Lemma in_attribute_order (f : field) : List.In f attribute_order.
Proof. destruct f; simpl; tauto. Qed.

Ltac check_field v := destruct v as [|[?|?]|?|?]; simpl; try reflexivity.

(** [_validate_data] raises at the first attribute, in the order of its
    checks, whose type is wrong, and returns the record when there is none. *)
Lemma validate_first_failure (self : Attributes) :
  match first_failure attribute_order self with
  | Some f => _validate_data self = Raise (ValueError (message f))
  | None =>
      exists v : Vacancy,
        _validate_data self = Ok v /\ forall f, getattr v f = attr self f
  end.
Proof.
  destruct self as [a1 a2 a3 a4 a5 a6 a7 a8 a9].
  unfold first_failure, well_typed, _validate_data; simpl.
  check_field a1; check_field a2; check_field a3; check_field a4;
    check_field a5; check_field a6; check_field a7; check_field a8;
    check_field a9;
    (eexists; split; [reflexivity | intros []; reflexivity]).
Qed.

Lemma validate_well_typed (self : Attributes) :
  (forall f, well_typed self f = true) ->
  exists v : Vacancy,
    _validate_data self = Ok v /\ forall f, getattr v f = attr self f.
Proof.
  intros Hall. pose proof (validate_first_failure self) as H.
  destruct (first_failure attribute_order self) as [g|] eqn:E; [|exact H].
  apply List.find_some in E. destruct E as [_ E].
  rewrite Hall in E. discriminate E.
Qed.

Lemma validate_ill_typed (self : Attributes) (f : field) :
  well_typed self f = false ->
  exists g : field, _validate_data self = Raise (ValueError (message g)).
Proof.
  intros Hf. pose proof (validate_first_failure self) as H.
  destruct (first_failure attribute_order self) as [g|] eqn:E.
  - exists g. exact H.
  - pose proof (List.find_none _ _ E f (in_attribute_order f)) as Hn.
    simpl in Hn. rewrite Hf in Hn. discriminate Hn.
Qed.

Lemma message_inj (f g : field) : message f = message g -> f = g.
Proof. destruct f, g; intros H; try reflexivity; discriminate H. Qed.

(** Every record is the result of the constructor on its own attributes. *)
Lemma constructed_all (v : Vacancy) : constructed v.
Proof.
  exists {| attr_id_num := getattr v f_id_num;
            attr_vacancy_name := getattr v f_vacancy_name;
            attr_company_name := getattr v f_company_name;
            attr_description := getattr v f_description;
            attr_salary_from := getattr v f_salary_from;
            attr_salary_to := getattr v f_salary_to;
            attr_salary_currency := getattr v f_salary_currency;
            attr_area := getattr v f_area;
            attr_url := getattr v f_url |}.
  destruct v; reflexivity.
Qed.

(** ** Construction and validation *)

(** C3.  A null [salary_from] or [salary_to] is stored as 0 and a null
    [salary_currency] as the sentinel text, each on its own; the null is
    replaced before [_validate_data] runs, so a call whose every argument is
    well typed or a null in one of these three fields returns a record. *)
Theorem null_defaults_before_validation (args : Attributes)
  (Hargs : forall f : field,
      well_typed args f = true \/
      (attr args f = VNone /\ null_default f <> None)) :
  exists v : Vacancy,
    construct args = Ok v /\
    construct args = _validate_data (with_defaults args) /\
    (attr_salary_from args = VNone -> salary_from v = NInt (PInt 0)) /\
    (attr_salary_to args = VNone -> salary_to v = NInt (PInt 0)) /\
    (attr_salary_currency args = VNone -> salary_currency v = "Нет данных") /\
    (forall f : field, attr args f <> VNone -> getattr v f = attr args f).
Proof.
  destruct (validate_well_typed (with_defaults args)) as [v [Hv Hget]].
  - intros f. unfold well_typed. rewrite attr_with_defaults.
    destruct (Hargs f) as [H|[H Hd]].
    + unfold well_typed in H. unfold coerced.
      destruct f, (attr args _); try exact H; discriminate H.
    + unfold coerced. rewrite H. destruct f; try reflexivity; now elim Hd.
  - exists v. rewrite construct_with_defaults.
    split; [exact Hv|]. split; [reflexivity|].
    pose proof (Hget f_salary_from) as Hsf.
    pose proof (Hget f_salary_to) as Hst.
    pose proof (Hget f_salary_currency) as Hsc.
    rewrite attr_with_defaults in Hsf, Hst, Hsc. unfold coerced in Hsf, Hst, Hsc.
    simpl in Hsf, Hst, Hsc.
    repeat split.
    + intros E. rewrite E in Hsf. now inversion Hsf.
    + intros E. rewrite E in Hst. now inversion Hst.
    + intros E. rewrite E in Hsc. now inversion Hsc.
    + intros f Hf. rewrite Hget, attr_with_defaults. unfold coerced.
      destruct (null_default f), (attr args f); try reflexivity; now elim Hf.
Qed.

Lemma null_defaults_witness :
  (forall f : field,
      well_typed args_null f = true \/
      (attr args_null f = VNone /\ null_default f <> None)) /\
  exists v : Vacancy,
    construct args_null = Ok v /\
    construct args_null = _validate_data (with_defaults args_null) /\
    (attr_salary_from args_null = VNone -> salary_from v = NInt (PInt 0)) /\
    (attr_salary_to args_null = VNone -> salary_to v = NInt (PInt 0)) /\
    (attr_salary_currency args_null = VNone ->
     salary_currency v = "Нет данных") /\
    (forall f : field, attr args_null f <> VNone ->
                       getattr v f = attr args_null f).
Proof.
  assert (H : forall f : field,
             well_typed args_null f = true \/
             (attr args_null f = VNone /\ null_default f <> None)).
  { intros []; simpl;
      first [ left; reflexivity | right; split; [reflexivity | discriminate] ]. }
  split; [exact H | exact (null_defaults_before_validation args_null H)].
Defined.

(** C4.  Types are judged on the values [_validate_data] sees, after the
    null coercion.  If some field has a value of the wrong type the call
    raises the validation error ([ValueError]) and returns no record; if
    every field has the right type the call returns a record whose nine
    accessors give back the coerced inputs. *)
Theorem construction_checks_types (args : Attributes) :
  ((exists f : field, isinstance (coerced args f) (declared_type f) = false) ->
   exists msg : string, construct args = Raise (ValueError msg)) /\
  ((forall f : field, isinstance (coerced args f) (declared_type f) = true) ->
   exists v : Vacancy,
     construct args = Ok v /\ forall f : field, getattr v f = coerced args f).
Proof.
  rewrite construct_with_defaults. split.
  - intros [f Hf].
    destruct (validate_ill_typed (with_defaults args) f) as [g Hg].
    + unfold well_typed. now rewrite attr_with_defaults.
    + exists (message g). exact Hg.
  - intros Hall.
    destruct (validate_well_typed (with_defaults args)) as [v [Hv Hget]].
    + intros f. unfold well_typed. now rewrite attr_with_defaults.
    + exists v. split; [exact Hv|].
      intros f. now rewrite Hget, attr_with_defaults.
Qed.

(** C7, as amended.  [_validate_data] checks the attributes in the order
    they are assigned: id_num, vacancy_name, company_name, description,
    salary_from, salary_to, salary_currency, area, url.  The first one of
    the wrong type raises the [ValueError] with that field's message, and
    each field has a message of its own; with the four fields before it
    well typed, a wrong salary_from is the one reported, whatever
    salary_currency holds. *)
Theorem validation_in_attribute_order (args : Attributes) :
  match first_failure attribute_order (with_defaults args) with
  | Some f => construct args = Raise (ValueError (message f))
  | None => exists v : Vacancy, construct args = Ok v
  end /\
  (forall f g : field, message f = message g -> f = g) /\
  (well_typed (with_defaults args) f_id_num = true ->
   well_typed (with_defaults args) f_vacancy_name = true ->
   well_typed (with_defaults args) f_company_name = true ->
   well_typed (with_defaults args) f_description = true ->
   well_typed (with_defaults args) f_salary_from = false ->
   construct args = Raise (ValueError (message f_salary_from))).
Proof.
  rewrite construct_with_defaults.
  pose proof (validate_first_failure (with_defaults args)) as H.
  split; [|split].
  - destruct (first_failure attribute_order (with_defaults args)).
    + exact H.
    + destruct H as [v [Hv _]]. now exists v.
  - exact message_inj.
  - intros H1 H2 H3 H4 H5. unfold first_failure in H. simpl in H.
    rewrite H1, H2, H3, H4, H5 in H. exact H.
Qed.

(** C7 as stated fails: with a text for salary_from and a number for
    salary_currency the listed order reaches salary_currency first, but the
    error raised is the one of salary_from. *)
Lemma listed_order_counterexample :
  well_typed (with_defaults args_two_wrong) f_salary_currency = false /\
  well_typed (with_defaults args_two_wrong) f_salary_from = false /\
  first_failure listed_order (with_defaults args_two_wrong)
    = Some f_salary_currency /\
  construct args_two_wrong = Raise (ValueError (message f_salary_from)) /\
  construct args_two_wrong <> Raise (ValueError (message f_salary_currency)).
Proof. repeat split; try reflexivity. discriminate. Qed.

(** C10.  [True] is an instance of [int], so the integer check lets a
    boolean id through: the sample call with [id_num = True] returns a
    record whose id is that boolean, and so does every call with a boolean
    id whose other eight fields have the right types. *)
Theorem boolean_id_accepted :
  isinstance (VNum (NInt (PBool true))) T_int = true /\
  (exists v : Vacancy,
     construct args_bool_id = Ok v /\
     id_num v = PBool true /\
     getattr v f_id_num = attr_id_num args_bool_id) /\
  (forall (b : bool) (args : Attributes),
     attr_id_num args = VNum (NInt (PBool b)) ->
     (forall f : field, f <> f_id_num ->
                        isinstance (coerced args f) (declared_type f) = true) ->
     exists v : Vacancy, construct args = Ok v /\ id_num v = PBool b).
Proof.
  split; [reflexivity|]. split.
  - eexists. split; [reflexivity|]. split; reflexivity.
  - intros b args Hid Hrest.
    destruct (validate_well_typed (with_defaults args)) as [v [Hv Hget]].
    + intros f. unfold well_typed. rewrite attr_with_defaults.
      destruct f; try (apply Hrest; discriminate).
      unfold coerced; simpl. now rewrite Hid.
    + exists v. rewrite construct_with_defaults. split; [exact Hv|].
      pose proof (Hget f_id_num) as H. rewrite attr_with_defaults in H.
      unfold coerced in H; simpl in H. rewrite Hid in H. now inversion H.
Qed.

(** ** Equality and ordering *)

(** C9, as amended.  [==] is symmetric.  [v == v] holds exactly when
    neither salary bound of [v] is a NaN float. *)
Theorem eq_symmetric_and_reflexive_off_nan (a b : Vacancy)
  (Ha : constructed a) (Hb : constructed b) :
  (__eq__ a b = true -> __eq__ b a = true) /\
  (__eq__ a a = true <->
   is_nan (salary_from a) = false /\ is_nan (salary_to a) = false).
Proof.
  unfold __eq__. split.
  - rewrite (py_eq_sym (salary_from a)), (py_eq_sym (salary_to a)).
    now rewrite (String.eqb_sym (salary_currency a)).
  - rewrite !py_eq_refl, String.eqb_refl, !andb_true_iff, !negb_true_iff.
    tauto.
Qed.

Lemma eq_symmetric_and_reflexive_witness :
  constructed v_usd /\ constructed v_other /\
  (__eq__ v_usd v_other = true -> __eq__ v_other v_usd = true) /\
  (__eq__ v_usd v_usd = true <->
   is_nan (salary_from v_usd) = false /\ is_nan (salary_to v_usd) = false).
Proof.
  assert (Ha : constructed v_usd) by (exists args_usd; reflexivity).
  assert (Hb : constructed v_other) by (exists args_other; reflexivity).
  split; [exact Ha|]. split; [exact Hb|].
  exact (eq_symmetric_and_reflexive_off_nan v_usd v_other Ha Hb).
Defined.

(** C9 as stated fails: a record built with [salary_from = float("nan")]
    is not equal to itself. *)
Lemma eq_not_reflexive_on_nan :
  construct args_nan = Ok v_nan /\ __eq__ v_nan v_nan = false.
Proof. split; reflexivity. Qed.

(** ** Dictionary export *)

Lemma to_dict_lookup (v : Vacancy) (f : field) :
  to_dict v !! field_name f = Some (getattr v f).
Proof. destruct f; reflexivity. Qed.

Lemma to_dict_dom (v : Vacancy) :
  dom (to_dict v) = list_to_set (field_name <$> attribute_order).
Proof. unfold to_dict. rewrite dom_list_to_map_L. reflexivity. Qed.

Lemma to_dict_size (v : Vacancy) : size (to_dict v) = 9%nat.
Proof. rewrite <- size_dom, to_dict_dom. reflexivity. Qed.

Lemma attrs_determine_record (args : Attributes) (v : Vacancy) :
  (forall f : field, attr args f = getattr v f) -> construct args = Ok v.
Proof.
  intros H. destruct args as [a1 a2 a3 a4 a5 a6 a7 a8 a9].
  pose proof (H f_id_num) as H1. pose proof (H f_vacancy_name) as H2.
  pose proof (H f_company_name) as H3. pose proof (H f_description) as H4.
  pose proof (H f_salary_from) as H5. pose proof (H f_salary_to) as H6.
  pose proof (H f_salary_currency) as H7. pose proof (H f_area) as H8.
  pose proof (H f_url) as H9. simpl in *. subst.
  destruct v; reflexivity.
Qed.

(** C6, as amended.  The exported mapping has the nine field names as its
    keys and nothing else, each bound to the stored value as it is.  The
    constructor called on these nine values returns a record that agrees
    with [v] on all nine accessors; that record is equal to [v] under [==]
    exactly when neither salary bound of [v] is a NaN float. *)
Theorem to_dict_round_trip (v : Vacancy) (Hv : constructed v) :
  dom (to_dict v) = list_to_set (field_name <$> attribute_order) /\
  size (to_dict v) = 9%nat /\
  (forall f : field, to_dict v !! field_name f = Some (getattr v f)) /\
  (exists args : Attributes,
     forall f : field, to_dict v !! field_name f = Some (attr args f)) /\
  (forall args : Attributes,
     (forall f : field, to_dict v !! field_name f = Some (attr args f)) ->
     exists r : Vacancy,
       construct args = Ok r /\
       (forall f : field, getattr r f = getattr v f) /\
       (__eq__ r v = true <->
        is_nan (salary_from v) = false /\ is_nan (salary_to v) = false)).
Proof.
  split; [apply to_dict_dom|]. split; [apply to_dict_size|].
  split; [apply to_dict_lookup|]. split.
  - destruct Hv as [args Hargs]. rewrite construct_with_defaults in Hargs.
    exists (with_defaults args). intros f. rewrite to_dict_lookup. f_equal.
    pose proof (validate_first_failure (with_defaults args)) as H.
    destruct (first_failure attribute_order (with_defaults args)).
    + rewrite Hargs in H. discriminate H.
    + destruct H as [v' [Hv' Hget]]. rewrite Hargs in Hv'.
      inversion Hv'; subst v'. apply Hget.
  - intros args Hlook. exists v. split; [|split].
    + apply attrs_determine_record. intros f.
      pose proof (Hlook f) as H. rewrite to_dict_lookup in H.
      now inversion H.
    + reflexivity.
    + unfold __eq__.
      rewrite !py_eq_refl, String.eqb_refl, !andb_true_iff, !negb_true_iff.
      tauto.
Qed.

Lemma to_dict_round_trip_witness :
  constructed v_usd /\
  dom (to_dict v_usd) = list_to_set (field_name <$> attribute_order) /\
  size (to_dict v_usd) = 9%nat /\
  (forall f : field, to_dict v_usd !! field_name f = Some (getattr v_usd f)) /\
  (exists args : Attributes,
     forall f : field, to_dict v_usd !! field_name f = Some (attr args f)) /\
  (forall args : Attributes,
     (forall f : field, to_dict v_usd !! field_name f = Some (attr args f)) ->
     exists r : Vacancy,
       construct args = Ok r /\
       (forall f : field, getattr r f = getattr v_usd f) /\
       (__eq__ r v_usd = true <->
        is_nan (salary_from v_usd) = false /\
        is_nan (salary_to v_usd) = false)).
Proof.
  assert (Hv : constructed v_usd) by (exists args_usd; reflexivity).
  split; [exact Hv | exact (to_dict_round_trip v_usd Hv)].
Defined.

(** C6 as stated fails: the record built with [salary_from = float("nan")]
    exports the arguments it was built from, and the record rebuilt from
    them is not equal to it. *)
Lemma round_trip_unequal_on_nan :
  construct args_nan = Ok v_nan /\
  (forall f : field, to_dict v_nan !! field_name f = Some (attr args_nan f)) /\
  (exists r : Vacancy, construct args_nan = Ok r /\ __eq__ r v_nan = false).
Proof.
  split; [reflexivity|]. split.
  - intros []; reflexivity.
  - exists v_nan. split; reflexivity.
Qed.

(** ** The examples of the specification *)

Example render_no_information :
  salary_range (with_salary (whole 0) (whole 0) "USD") = Ok "Информации нет".
Proof. reflexivity. Qed.

Example render_from_only :
  salary_range (with_salary (whole 50000) (whole 0) "USD") = Ok "От 50000 USD".
Proof. reflexivity. Qed.

Example render_to_only :
  salary_range (with_salary (whole 0) (whole 70000) "USD") = Ok "До 70000 USD".
Proof. reflexivity. Qed.

Example render_both :
  salary_range (with_salary (whole 50000) (whole 70000) "USD")
  = Ok "От 50000 До 70000 USD".
Proof. reflexivity. Qed.

Example render_negative_float :
  salary_range (with_salary (NFloat (float_of_ratio (-5) 2)) (whole 0) "USD")
  = Ok "От -2 USD".
Proof. reflexivity. Qed.

Example render_infinite :
  __str__ (with_salary (NFloat (S754_infinity false)) (whole 0) "USD")
  = Raise (OverflowError "cannot convert float infinity to integer").
Proof. reflexivity. Qed.

Example equal_on_salary : __eq__ v_usd v_other = true.
Proof. reflexivity. Qed.

Example unequal_on_currency :
  __eq__ (with_salary (whole 1) (whole 2) "USD") (with_salary (whole 1) (whole 2) "RUB")
  = false.
Proof. reflexivity. Qed.

Example equal_int_and_float :
  __eq__ (with_salary (whole 50000) (whole 0) "USD")
         (with_salary (NFloat (float_of_Z 50000)) (NFloat (S754_zero true)) "USD")
  = true.
Proof. reflexivity. Qed.

Example less_by_salary_from :
  __lt__ (with_salary (whole 100) (whole 0) "USD") (with_salary (whole 200) (whole 0) "USD")
  = true /\
  __lt__ (with_salary (whole 200) (whole 0) "USD") (with_salary (whole 100) (whole 0) "USD")
  = false.
Proof. split; reflexivity. Qed.

Example greater_by_salary_to :
  __gt__ (with_salary (whole 0) (whole 500) "USD") (with_salary (whole 0) (whole 300) "USD")
  = true.
Proof. reflexivity. Qed.

Example null_arguments_stored :
  construct args_null
  = Ok {| id_num := PInt 3;
          vacancy_name := "Intern";
          company_name := "Acme";
          description := "Learns";
          salary_from := NInt (PInt 0);
          salary_to := NInt (PInt 0);
          salary_currency := "Нет данных";
          area := "Kazan";
          url := "https://example.org/3" |}.
Proof. reflexivity. Qed.

(** ** Comparison is exact *)

Lemma digits2_pos_bounds (m : positive) :
  2 ^ (Z.pos (digits2_pos m) - 1) <= Z.pos m < 2 ^ Z.pos (digits2_pos m).
Proof.
  induction m as [p IH|p IH|]; simpl digits2_pos.
  - rewrite Pos2Z.inj_succ.
    replace (Z.succ (Z.pos (digits2_pos p)) - 1)
      with (Z.succ (Z.pos (digits2_pos p) - 1)) by lia.
    rewrite !Z.pow_succ_r by lia. lia.
  - rewrite Pos2Z.inj_succ.
    replace (Z.succ (Z.pos (digits2_pos p)) - 1)
      with (Z.succ (Z.pos (digits2_pos p) - 1)) by lia.
    rewrite !Z.pow_succ_r by lia. lia.
  - simpl. lia.
Qed.

(** A valid finite float has an exponent from -1074 on and a mantissa
    below [2^53], which is at least [2^52] above the smallest exponent. *)
Lemma valid_finite_bounds (s : bool) (m : positive) (e : Z) :
  valid_binary prec emax (S754_finite s m e) = true ->
  -1074 <= e /\ Z.pos m < 2 ^ 53 /\ (-1074 < e -> 2 ^ 52 <= Z.pos m).
Proof.
  unfold valid_binary, bounded, canonical_mantissa, fexp, emin, prec, emax.
  rewrite andb_true_iff, Z.eqb_eq. intros [H _].
  pose proof (digits2_pos_bounds m) as [Hlo Hhi].
  set (d := Z.pos (digits2_pos m)) in *.
  assert (Hd : d <= 53) by lia.
  split; [lia|]. split.
  - apply Z.lt_le_trans with (2 ^ d); [exact Hhi|].
    apply Z.pow_le_mono_r; lia.
  - intros He. assert (d = 53) by lia. subst d.
    replace 52 with (Z.pos (digits2_pos m) - 1) by lia. exact Hlo.
Qed.

Lemma mul_compare_mono_r (p n m : Z) : 0 < p -> (n * p ?= m * p) = (n ?= m).
Proof.
  intros Hp. destruct (Z.compare_spec n m) as [E|E|E].
  - subst. apply Z.compare_refl.
  - apply Z.compare_lt_iff. nia.
  - apply Z.compare_gt_iff. nia.
Qed.

Lemma scaled_compare (n m : Z) : (n * 2 ^ 1074 ?= m * 2 ^ 1074) = (n ?= m).
Proof. apply mul_compare_mono_r. apply Z.pow_pos_nonneg; lia. Qed.

Lemma int_float_compare_exact (n : Z) (f : spec_float) :
  valid_binary prec emax f = true ->
  int_float_compare n f
  = match num_value (NFloat f) with
    | Some b => Some (ext_compare (Fin (n * 2 ^ 1074)) b)
    | None => None
    end.
Proof.
  intros Hf. destruct f as [s|s| |s m e]; simpl.
  - f_equal. symmetry. apply (scaled_compare n 0).
  - destruct s; reflexivity.
  - reflexivity.
  - destruct (valid_finite_bounds s m e Hf) as [He _]. f_equal.
    destruct (Z.leb_spec 0 e) as [H|H].
    + rewrite Z.shiftl_mul_pow2 by assumption.
      rewrite Z.pow_add_r, Z.mul_assoc by lia. now rewrite scaled_compare.
    + rewrite Z.shiftl_mul_pow2 by lia.
      replace (2 ^ 1074) with (2 ^ (- e) * 2 ^ (e + 1074)).
      * rewrite Z.mul_assoc. symmetry. apply mul_compare_mono_r.
        apply Z.pow_pos_nonneg; lia.
      * rewrite <- Z.pow_add_r by lia. f_equal. lia.
Qed.

(** The magnitudes of two valid finite floats compare by exponent first
    and by mantissa at equal exponents. *)
Lemma magnitude_compare (s1 s2 : bool) (m1 m2 : positive) (e1 e2 : Z) :
  valid_binary prec emax (S754_finite s1 m1 e1) = true ->
  valid_binary prec emax (S754_finite s2 m2 e2) = true ->
  (Z.pos m1 * 2 ^ (e1 + 1074) ?= Z.pos m2 * 2 ^ (e2 + 1074))
  = match e1 ?= e2 with
    | Eq => Pos.compare_cont Eq m1 m2
    | Lt => Lt
    | Gt => Gt
    end.
Proof.
  intros H1 H2.
  destruct (valid_finite_bounds _ _ _ H1) as [L1 [U1 N1]].
  destruct (valid_finite_bounds _ _ _ H2) as [L2 [U2 N2]].
  assert (Hstep : forall (a b : positive) (i j : Z),
             -1074 <= i -> i < j -> Z.pos a < 2 ^ 53 -> 2 ^ 52 <= Z.pos b ->
             Z.pos a * 2 ^ (i + 1074) < Z.pos b * 2 ^ (j + 1074)).
  { intros a b i j Hi Hij Ha Hb.
    assert (P : 0 < 2 ^ (i + 1074)) by (apply Z.pow_pos_nonneg; lia).
    apply Z.lt_le_trans with (2 ^ 53 * 2 ^ (i + 1074)).
    - apply Z.mul_lt_mono_pos_r; assumption.
    - apply Z.le_trans with (2 ^ 52 * 2 ^ (j + 1074)).
      + replace (2 ^ 53) with (2 ^ 52 * 2 ^ 1) by reflexivity.
        rewrite <- Z.mul_assoc, <- Z.pow_add_r by lia.
        apply Z.mul_le_mono_nonneg_l; [lia|].
        apply Z.pow_le_mono_r; lia.
      + apply Z.mul_le_mono_nonneg_r; [|assumption].
        apply Z.pow_nonneg; lia. }
  destruct (Z.compare_spec e1 e2) as [E|E|E].
  - subst e2. rewrite mul_compare_mono_r by (apply Z.pow_pos_nonneg; lia).
    reflexivity.
  - apply Z.compare_lt_iff. apply Hstep; try assumption. apply N2; lia.
  - apply Z.compare_gt_iff. apply Hstep; try assumption. apply N1; lia.
Qed.

Lemma SFcompare_exact (f g : spec_float) :
  valid_binary prec emax f = true -> valid_binary prec emax g = true ->
  SFcompare f g
  = match num_value (NFloat f), num_value (NFloat g) with
    | Some a, Some b => Some (ext_compare a b)
    | _, _ => None
    end.
Proof.
  intros Hf Hg.
  destruct f as [s1|s1| |s1 m1 e1], g as [s2|s2| |s2 m2 e2];
    unfold SFcompare, num_value, ext_compare; cbv beta iota;
    try reflexivity; try (destruct s1; reflexivity);
    try (destruct s2; reflexivity); try (destruct s1, s2; reflexivity).
  - (* zero against finite *)
    destruct (valid_finite_bounds _ _ _ Hg) as [L _]. f_equal. symmetry.
    assert (P : 0 < 2 ^ (e2 + 1074)) by (apply Z.pow_pos_nonneg; lia).
    destruct s2; unfold signed;
      [apply Z.compare_gt_iff | apply Z.compare_lt_iff]; nia.
  - (* finite against zero *)
    destruct (valid_finite_bounds _ _ _ Hf) as [L _]. f_equal. symmetry.
    assert (P : 0 < 2 ^ (e1 + 1074)) by (apply Z.pow_pos_nonneg; lia).
    destruct s1; unfold signed;
      [apply Z.compare_lt_iff | apply Z.compare_gt_iff]; nia.
  - (* finite against finite *)
    destruct (valid_finite_bounds _ _ _ Hf) as [L1 _].
    destruct (valid_finite_bounds _ _ _ Hg) as [L2 _].
    assert (P1 : 0 < 2 ^ (e1 + 1074)) by (apply Z.pow_pos_nonneg; lia).
    assert (P2 : 0 < 2 ^ (e2 + 1074)) by (apply Z.pow_pos_nonneg; lia).
    pose proof (magnitude_compare s1 s2 m1 m2 e1 e2 Hf Hg) as M.
    f_equal. destruct s1, s2; unfold signed.
    + change (Z.neg m1) with (- Z.pos m1). change (Z.neg m2) with (- Z.pos m2).
      rewrite !Z.mul_opp_l, Z.compare_opp.
      rewrite (Z.compare_antisym (Z.pos m1 * 2 ^ (e1 + 1074))), M.
      destruct (e1 ?= e2); reflexivity.
    + symmetry. apply Z.compare_lt_iff. nia.
    + symmetry. apply Z.compare_gt_iff. nia.
    + rewrite M. reflexivity.
Qed.

Lemma ext_compare_antisym (a b : ext) :
  ext_compare b a = CompOpp (ext_compare a b).
Proof. destruct a, b; simpl; try reflexivity. apply Z.compare_antisym. Qed.

Lemma ext_compare_eq (a b : ext) : ext_compare a b = Eq <-> a = b.
Proof.
  destruct a, b; simpl; split; intros H; try reflexivity; try discriminate H.
  - apply Z.compare_eq in H. now subst.
  - inversion H. apply Z.compare_refl.
Qed.

Lemma ext_compare_trans (c : comparison) (a b d : ext) :
  ext_compare a b = c -> ext_compare b d = c -> ext_compare a d = c.
Proof.
  destruct c, a as [|x|], b as [|y|], d as [|z|]; simpl; intros H1 H2;
    try reflexivity; try discriminate H1; try discriminate H2.
  - apply Z.compare_eq in H1, H2. subst. apply Z.compare_refl.
  - rewrite Z.compare_lt_iff in *. lia.
  - rewrite Z.compare_gt_iff in *. lia.
Qed.

Lemma ext_compare_le_trans (a b d : ext) :
  ext_compare a b <> Gt -> ext_compare b d <> Gt -> ext_compare a d <> Gt.
Proof.
  destruct a as [|x|], b as [|y|], d as [|z|]; simpl; intros H1 H2;
    try discriminate; try (now elim H1); try (now elim H2).
  rewrite Z.compare_le_iff in *. lia.
Qed.

(** Python's comparison of two numbers is the comparison of their exact
    values. *)
Lemma num_compare_exact (x y : pynum) :
  valid_num x = true -> valid_num y = true ->
  num_compare x y
  = match num_value x, num_value y with
    | Some a, Some b => Some (ext_compare a b)
    | _, _ => None
    end.
Proof.
  intros Hx Hy. destruct x as [i|f], y as [j|g].
  - simpl. now rewrite scaled_compare.
  - unfold num_compare. rewrite (int_float_compare_exact _ _ Hy). reflexivity.
  - unfold num_compare. rewrite (int_float_compare_exact _ _ Hx).
    destruct (num_value (NFloat f)) as [a|]; [|reflexivity].
    change (Some (CompOpp (ext_compare (Fin (int_val j * 2 ^ 1074)) a))
            = Some (ext_compare a (Fin (int_val j * 2 ^ 1074)))).
    f_equal. symmetry. apply ext_compare_antisym.
  - apply SFcompare_exact; assumption.
Qed.

Lemma num_compare_value (x y : pynum) (c : comparison) :
  valid_num x = true -> valid_num y = true ->
  (num_compare x y = Some c <->
   exists a b : ext,
     num_value x = Some a /\ num_value y = Some b /\ ext_compare a b = c).
Proof.
  intros Hx Hy. rewrite (num_compare_exact x y Hx Hy).
  destruct (num_value x) as [a|], (num_value y) as [b|]; split.
  - intros H. inversion H. now exists a, b.
  - intros [a' [b' [Ea [Eb Ec]]]]. inversion Ea; inversion Eb; now subst.
  - discriminate.
  - intros [a' [b' [_ [Eb _]]]]. discriminate Eb.
  - discriminate.
  - intros [a' [b' [Ea _]]]. discriminate Ea.
  - discriminate.
  - intros [a' [b' [Ea _]]]. discriminate Ea.
Qed.

Lemma num_compare_trans (c : comparison) (x y z : pynum) :
  valid_num x = true -> valid_num y = true -> valid_num z = true ->
  num_compare x y = Some c -> num_compare y z = Some c ->
  num_compare x z = Some c.
Proof.
  intros Hx Hy Hz H1 H2.
  apply (num_compare_value x y c Hx Hy) in H1.
  apply (num_compare_value y z c Hy Hz) in H2.
  destruct H1 as [a [b [Ea [Eb E1]]]]. destruct H2 as [b' [d [Eb' [Ed E2]]]].
  rewrite Eb in Eb'. inversion Eb'; subst b'.
  apply (num_compare_value x z c Hx Hz). exists a, d.
  split; [exact Ea|]. split; [exact Ed|].
  exact (ext_compare_trans c a b d E1 E2).
Qed.

(** The comparison is undefined exactly when an operand is NaN. *)
Lemma num_compare_nan (x y : pynum) :
  match num_compare x y with
  | None => is_nan x || is_nan y = true
  | Some _ => is_nan x || is_nan y = false
  end.
Proof.
  destruct x as [i|[s1|s1| |s1 m1 e1]], y as [j|[s2|s2| |s2 m2 e2]];
    reflexivity.
Qed.

Lemma py_eq_trans (x y z : pynum) :
  valid_num x = true -> valid_num y = true -> valid_num z = true ->
  py_eq x y = true -> py_eq y z = true -> py_eq x z = true.
Proof.
  unfold py_eq. intros Hx Hy Hz H1 H2.
  destruct (num_compare x y) as [[]|] eqn:E1; try discriminate H1.
  destruct (num_compare y z) as [[]|] eqn:E2; try discriminate H2.
  now rewrite (num_compare_trans Eq x y z Hx Hy Hz E1 E2).
Qed.

Lemma py_lt_trans (x y z : pynum) :
  valid_num x = true -> valid_num y = true -> valid_num z = true ->
  py_lt x y = true -> py_lt y z = true -> py_lt x z = true.
Proof.
  unfold py_lt. intros Hx Hy Hz H1 H2.
  destruct (num_compare x y) as [[]|] eqn:E1; try discriminate H1.
  destruct (num_compare y z) as [[]|] eqn:E2; try discriminate H2.
  now rewrite (num_compare_trans Lt x y z Hx Hy Hz E1 E2).
Qed.

Lemma py_gt_trans (x y z : pynum) :
  valid_num x = true -> valid_num y = true -> valid_num z = true ->
  py_gt x y = true -> py_gt y z = true -> py_gt x z = true.
Proof.
  unfold py_gt. intros Hx Hy Hz H1 H2.
  destruct (num_compare x y) as [[]|] eqn:E1; try discriminate H1.
  destruct (num_compare y z) as [[]|] eqn:E2; try discriminate H2.
  now rewrite (num_compare_trans Gt x y z Hx Hy Hz E1 E2).
Qed.

Lemma py_le_trans (x y z : pynum) :
  valid_num x = true -> valid_num y = true -> valid_num z = true ->
  py_le x y = true -> py_le y z = true -> py_le x z = true.
Proof.
  unfold py_le. intros Hx Hy Hz H1 H2.
  rewrite (num_compare_exact x z Hx Hz).
  rewrite (num_compare_exact x y Hx Hy) in H1.
  rewrite (num_compare_exact y z Hy Hz) in H2.
  destruct (num_value x) as [a|]; [|discriminate H1].
  destruct (num_value y) as [b|]; [|discriminate H1].
  destruct (num_value z) as [d|]; [|discriminate H2].
  pose proof (ext_compare_le_trans a b d) as T.
  destruct (ext_compare a b); try discriminate H1;
    destruct (ext_compare b d); try discriminate H2;
    destruct (ext_compare a d); try reflexivity;
    exfalso; apply T; discriminate || reflexivity.
Qed.

Lemma py_ge_trans (x y z : pynum) :
  valid_num x = true -> valid_num y = true -> valid_num z = true ->
  py_ge x y = true -> py_ge y z = true -> py_ge x z = true.
Proof.
  assert (G : forall u w, py_ge u w = py_le w u).
  { intros u w. unfold py_ge, py_le. rewrite (num_compare_antisym u w).
    destruct (num_compare u w) as [[]|]; reflexivity. }
  intros Hx Hy Hz. rewrite !G. intros H1 H2.
  exact (py_le_trans z y x Hz Hy Hx H2 H1).
Qed.

(** [<=] is [not >] the other way round, except that with a NaN operand
    both are false; the same for [>=]. *)
Lemma py_le_not_lt (x y : pynum) :
  py_le x y = negb (is_nan x) && negb (is_nan y) && negb (py_lt y x).
Proof.
  unfold py_le, py_lt. rewrite (num_compare_antisym x y).
  pose proof (num_compare_nan x y) as N.
  destruct (num_compare x y) as [[]|], (is_nan x), (is_nan y);
    simpl in *; try discriminate N; reflexivity.
Qed.

Lemma py_ge_not_gt (x y : pynum) :
  py_ge x y = negb (is_nan x) && negb (is_nan y) && negb (py_gt y x).
Proof.
  unfold py_ge, py_gt. rewrite (num_compare_antisym x y).
  pose proof (num_compare_nan x y) as N.
  destruct (num_compare x y) as [[]|], (is_nan x), (is_nan y);
    simpl in *; try discriminate N; reflexivity.
Qed.

Lemma py_eq_value (x y : pynum) :
  valid_num x = true -> valid_num y = true ->
  (py_eq x y = true <->
   exists a : ext, num_value x = Some a /\ num_value y = Some a).
Proof.
  intros Hx Hy. unfold py_eq. split.
  - destruct (num_compare x y) as [[]|] eqn:E; try discriminate. intros _.
    apply (num_compare_value x y Eq Hx Hy) in E.
    destruct E as [a [b [Ea [Eb E]]]]. apply ext_compare_eq in E. subst b.
    now exists a.
  - intros [a [Ea Eb]].
    assert (E : num_compare x y = Some Eq).
    { apply (num_compare_value x y Eq Hx Hy). exists a, a.
      split; [exact Ea|]. split; [exact Eb|]. now apply ext_compare_eq. }
    now rewrite E.
Qed.

(** Numbers of the same value compare alike with any third number. *)
Lemma num_compare_same_value (x y z : pynum) :
  valid_num x = true -> valid_num y = true -> valid_num z = true ->
  num_value x = num_value y -> num_compare x z = num_compare y z.
Proof.
  intros Hx Hy Hz E.
  now rewrite (num_compare_exact x z Hx Hz), (num_compare_exact y z Hy Hz), E.
Qed.

(** [int()] reads the value only: it is the value divided by the unit,
    rounded toward zero. *)
Lemma py_int_value (x : pynum) :
  valid_num x = true ->
  py_int x
  = match num_value x with
    | Some (Fin z) => Ok (Z.quot z (2 ^ 1074))
    | Some _ => Raise (OverflowError "cannot convert float infinity to integer")
    | None => Raise (ValueError "cannot convert float NaN to integer")
    end.
Proof.
  intros Hx.
  assert (P : 2 ^ 1074 <> 0) by (apply Z.pow_nonzero; lia).
  destruct x as [i|[s|s| |s m e]].
  - unfold py_int, num_value. now rewrite Z.quot_mul.
  - unfold py_int, num_value. now rewrite Z.quot_0_l.
  - destruct s; reflexivity.
  - reflexivity.
  - rewrite py_int_finite. unfold num_value. f_equal.
    destruct (valid_finite_bounds s m e Hx) as [He _].
    destruct (Z.le_gt_cases 0 e) as [H|H].
    + rewrite (Z.max_r 0 e), (Z.max_l 0 (- e)) by lia.
      rewrite Z.pow_0_r, Z.quot_1_r.
      rewrite Z.pow_add_r, Z.mul_assoc by lia. now rewrite Z.quot_mul.
    + rewrite (Z.max_l 0 e), (Z.max_r 0 (- e)) by lia.
      rewrite Z.pow_0_r, Z.mul_1_r.
      replace (2 ^ 1074) with (2 ^ (- e) * 2 ^ (e + 1074)).
      * rewrite Z.quot_mul_cancel_r; [reflexivity| |];
          apply Z.pow_nonzero; lia.
      * rewrite <- Z.pow_add_r by lia. f_equal. lia.
Qed.

(** ** What the comparisons compare *)

Lemma py_lt_value (x y : pynum) :
  valid_num x = true -> valid_num y = true ->
  (py_lt x y = true <->
   exists a b : ext,
     num_value x = Some a /\ num_value y = Some b /\ ext_compare a b = Lt).
Proof.
  intros Hx Hy. rewrite <- (num_compare_value x y Lt Hx Hy). unfold py_lt.
  destruct (num_compare x y) as [[]|]; split; congruence.
Qed.

Lemma py_gt_value (x y : pynum) :
  valid_num x = true -> valid_num y = true ->
  (py_gt x y = true <->
   exists a b : ext,
     num_value x = Some a /\ num_value y = Some b /\ ext_compare a b = Gt).
Proof.
  intros Hx Hy. rewrite <- (num_compare_value x y Gt Hx Hy). unfold py_gt.
  destruct (num_compare x y) as [[]|]; split; congruence.
Qed.

Lemma py_le_value (x y : pynum) :
  valid_num x = true -> valid_num y = true ->
  (py_le x y = true <->
   exists a b : ext,
     num_value x = Some a /\ num_value y = Some b /\ ext_compare a b <> Gt).
Proof.
  intros Hx Hy. unfold py_le. rewrite (num_compare_exact x y Hx Hy).
  destruct (num_value x) as [a|], (num_value y) as [b|]; split;
    try discriminate;
    try (intros [a' [b' [Ea [Eb _]]]]; discriminate).
  - intros H. exists a, b. repeat split.
    destruct (ext_compare a b); discriminate.
  - intros [a' [b' [Ea [Eb E]]]]. inversion Ea; inversion Eb; subst.
    destruct (ext_compare a' b'); try reflexivity. now elim E.
Qed.

Lemma py_ge_value (x y : pynum) :
  valid_num x = true -> valid_num y = true ->
  (py_ge x y = true <->
   exists a b : ext,
     num_value x = Some a /\ num_value y = Some b /\ ext_compare a b <> Lt).
Proof.
  intros Hx Hy. unfold py_ge. rewrite (num_compare_exact x y Hx Hy).
  destruct (num_value x) as [a|], (num_value y) as [b|]; split;
    try discriminate;
    try (intros [a' [b' [Ea [Eb _]]]]; discriminate).
  - intros H. exists a, b. repeat split.
    destruct (ext_compare a b); discriminate.
  - intros [a' [b' [Ea [Eb E]]]]. inversion Ea; inversion Eb; subst.
    destruct (ext_compare a' b'); try reflexivity. now elim E.
Qed.

(** C1.  [a == b] holds exactly when the two salary_from have the same
    value, the two salary_to have the same value and the two
    salary_currency are the same text.  The value of a number is its exact
    one, whether it is held as an integer, a boolean or a float, and a NaN
    has none.  Two records that carry the same three salary fields as [a]
    and [b] compare the same way, whatever their other six fields. *)
Theorem eq_is_salary_equivalence (a b : Vacancy)
  (Ha : constructed a) (Hb : constructed b)
  (Va : valid_salaries a = true) (Vb : valid_salaries b = true) :
  (__eq__ a b = true <->
   (exists x : ext, num_value (salary_from a) = Some x /\
                    num_value (salary_from b) = Some x) /\
   (exists y : ext, num_value (salary_to a) = Some y /\
                    num_value (salary_to b) = Some y) /\
   salary_currency a = salary_currency b) /\
  (forall a' b' : Vacancy,
     constructed a' -> constructed b' ->
     salary_from a' = salary_from a -> salary_to a' = salary_to a ->
     salary_currency a' = salary_currency a ->
     salary_from b' = salary_from b -> salary_to b' = salary_to b ->
     salary_currency b' = salary_currency b ->
     __eq__ a' b' = __eq__ a b).
Proof.
  unfold valid_salaries in Va, Vb.
  apply andb_true_iff in Va, Vb. destruct Va as [Va1 Va2], Vb as [Vb1 Vb2].
  split.
  - unfold __eq__. rewrite !andb_true_iff, String.eqb_eq.
    rewrite (py_eq_value _ _ Va1 Vb1), (py_eq_value _ _ Va2 Vb2). tauto.
  - intros a' b' _ _ E1 E2 E3 E4 E5 E6. unfold __eq__.
    now rewrite E1, E2, E3, E4, E5, E6.
Qed.

Lemma eq_is_salary_equivalence_witness :
  constructed v_usd /\ constructed v_usd_float /\
  valid_salaries v_usd = true /\ valid_salaries v_usd_float = true /\
  (__eq__ v_usd v_usd_float = true <->
   (exists x : ext, num_value (salary_from v_usd) = Some x /\
                    num_value (salary_from v_usd_float) = Some x) /\
   (exists y : ext, num_value (salary_to v_usd) = Some y /\
                    num_value (salary_to v_usd_float) = Some y) /\
   salary_currency v_usd = salary_currency v_usd_float) /\
  (forall a' b' : Vacancy,
     constructed a' -> constructed b' ->
     salary_from a' = salary_from v_usd -> salary_to a' = salary_to v_usd ->
     salary_currency a' = salary_currency v_usd ->
     salary_from b' = salary_from v_usd_float ->
     salary_to b' = salary_to v_usd_float ->
     salary_currency b' = salary_currency v_usd_float ->
     __eq__ a' b' = __eq__ v_usd v_usd_float).
Proof.
  assert (Ha : constructed v_usd) by (exists args_usd; reflexivity).
  assert (Hb : constructed v_usd_float)
    by (exists (args_of v_usd_float); reflexivity).
  split; [exact Ha|]. split; [exact Hb|].
  split; [reflexivity|]. split; [reflexivity|].
  exact (eq_is_salary_equivalence v_usd v_usd_float Ha Hb eq_refl eq_refl).
Defined.

(** C2.  [a < b] holds exactly when the value of [a]'s salary_from is
    below that of [b]'s, [a <= b] when it is not above; [a > b] holds
    exactly when the value of [a]'s salary_to is above that of [b]'s,
    [a >= b] when it is not below.  The values are the exact ones, and a
    NaN, which has none, makes all four false.  On integer salaries these
    are the comparisons of [Z]. *)
Theorem ordering_by_salary_bounds (a b : Vacancy)
  (Ha : constructed a) (Hb : constructed b)
  (Va : valid_salaries a = true) (Vb : valid_salaries b = true) :
  (__lt__ a b = true <->
   exists x y : ext,
     num_value (salary_from a) = Some x /\
     num_value (salary_from b) = Some y /\ ext_compare x y = Lt) /\
  (__le__ a b = true <->
   exists x y : ext,
     num_value (salary_from a) = Some x /\
     num_value (salary_from b) = Some y /\ ext_compare x y <> Gt) /\
  (__gt__ a b = true <->
   exists x y : ext,
     num_value (salary_to a) = Some x /\
     num_value (salary_to b) = Some y /\ ext_compare x y = Gt) /\
  (__ge__ a b = true <->
   exists x y : ext,
     num_value (salary_to a) = Some x /\
     num_value (salary_to b) = Some y /\ ext_compare x y <> Lt) /\
  (forall m n : Z,
     salary_from a = NInt (PInt m) -> salary_from b = NInt (PInt n) ->
     __lt__ a b = (m <? n) /\ __le__ a b = (m <=? n)) /\
  (forall m n : Z,
     salary_to a = NInt (PInt m) -> salary_to b = NInt (PInt n) ->
     __gt__ a b = (m >? n) /\ __ge__ a b = (m >=? n)).
Proof.
  unfold valid_salaries in Va, Vb.
  apply andb_true_iff in Va, Vb. destruct Va as [Va1 Va2], Vb as [Vb1 Vb2].
  unfold __lt__, __le__, __gt__, __ge__.
  split; [exact (py_lt_value _ _ Va1 Vb1)|].
  split; [exact (py_le_value _ _ Va1 Vb1)|].
  split; [exact (py_gt_value _ _ Va2 Vb2)|].
  split; [exact (py_ge_value _ _ Va2 Vb2)|].
  split.
  - intros m n Em En. rewrite Em, En. split; [apply py_lt_int | apply py_le_int].
  - intros m n Em En. rewrite Em, En. split; [apply py_gt_int | apply py_ge_int].
Qed.

Lemma ordering_by_salary_bounds_witness :
  constructed v_float /\ constructed v_usd /\
  valid_salaries v_float = true /\ valid_salaries v_usd = true /\
  (__lt__ v_float v_usd = true <->
   exists x y : ext,
     num_value (salary_from v_float) = Some x /\
     num_value (salary_from v_usd) = Some y /\ ext_compare x y = Lt) /\
  (__le__ v_float v_usd = true <->
   exists x y : ext,
     num_value (salary_from v_float) = Some x /\
     num_value (salary_from v_usd) = Some y /\ ext_compare x y <> Gt) /\
  (__gt__ v_float v_usd = true <->
   exists x y : ext,
     num_value (salary_to v_float) = Some x /\
     num_value (salary_to v_usd) = Some y /\ ext_compare x y = Gt) /\
  (__ge__ v_float v_usd = true <->
   exists x y : ext,
     num_value (salary_to v_float) = Some x /\
     num_value (salary_to v_usd) = Some y /\ ext_compare x y <> Lt) /\
  (forall m n : Z,
     salary_from v_float = NInt (PInt m) -> salary_from v_usd = NInt (PInt n) ->
     __lt__ v_float v_usd = (m <? n) /\ __le__ v_float v_usd = (m <=? n)) /\
  (forall m n : Z,
     salary_to v_float = NInt (PInt m) -> salary_to v_usd = NInt (PInt n) ->
     __gt__ v_float v_usd = (m >? n) /\ __ge__ v_float v_usd = (m >=? n)).
Proof.
  assert (Ha : constructed v_float) by (exists args_float; reflexivity).
  assert (Hb : constructed v_usd) by (exists args_usd; reflexivity).
  split; [exact Ha|]. split; [exact Hb|].
  split; [reflexivity|]. split; [reflexivity|].
  exact (ordering_by_salary_bounds v_float v_usd Ha Hb eq_refl eq_refl).
Defined.

(** ** Equality and ordering as relations *)

(** X1.  On records whose floats are binary64 values, [a == b] holds
    exactly when the two salary_from have the same exact value, the two
    salary_to have the same exact value (an integer and a float are compared
    without rounding, and a NaN has no value) and the currencies are the
    same text. *)
Theorem eq_compares_exact_values (a b : Vacancy)
  (Ha : valid_salaries a = true) (Hb : valid_salaries b = true) :
  __eq__ a b = true <->
  (exists x : ext, num_value (salary_from a) = Some x /\
                   num_value (salary_from b) = Some x) /\
  (exists y : ext, num_value (salary_to a) = Some y /\
                   num_value (salary_to b) = Some y) /\
  salary_currency a = salary_currency b.
Proof.
  unfold valid_salaries in Ha, Hb.
  apply andb_true_iff in Ha, Hb. destruct Ha as [Ha1 Ha2], Hb as [Hb1 Hb2].
  unfold __eq__. rewrite !andb_true_iff, String.eqb_eq.
  rewrite (py_eq_value _ _ Ha1 Hb1), (py_eq_value _ _ Ha2 Hb2). tauto.
Qed.

Lemma eq_compares_exact_values_witness :
  valid_salaries v_usd = true /\ valid_salaries v_other = true /\
  (__eq__ v_usd v_other = true <->
   (exists x : ext, num_value (salary_from v_usd) = Some x /\
                    num_value (salary_from v_other) = Some x) /\
   (exists y : ext, num_value (salary_to v_usd) = Some y /\
                    num_value (salary_to v_other) = Some y) /\
   salary_currency v_usd = salary_currency v_other).
Proof.
  split; [reflexivity|]. split; [reflexivity|].
  exact (eq_compares_exact_values v_usd v_other eq_refl eq_refl).
Defined.

(** X2.  [==] is transitive on records whose floats are binary64 values. *)
Theorem eq_transitive (a b c : Vacancy)
  (Ha : valid_salaries a = true) (Hb : valid_salaries b = true)
  (Hc : valid_salaries c = true)
  (Hab : __eq__ a b = true) (Hbc : __eq__ b c = true) :
  __eq__ a c = true.
Proof.
  unfold valid_salaries in Ha, Hb, Hc.
  apply andb_true_iff in Ha, Hb, Hc.
  destruct Ha as [Ha1 Ha2], Hb as [Hb1 Hb2], Hc as [Hc1 Hc2].
  unfold __eq__ in *. rewrite !andb_true_iff in *.
  destruct Hab as [[F1 T1] C1], Hbc as [[F2 T2] C2].
  repeat split.
  - exact (py_eq_trans _ _ _ Ha1 Hb1 Hc1 F1 F2).
  - exact (py_eq_trans _ _ _ Ha2 Hb2 Hc2 T1 T2).
  - apply String.eqb_eq in C1, C2. apply String.eqb_eq. congruence.
Qed.

Lemma eq_transitive_witness :
  valid_salaries v_usd = true /\ valid_salaries v_other = true /\
  valid_salaries v_usd_float = true /\
  __eq__ v_usd v_other = true /\ __eq__ v_other v_usd_float = true /\
  __eq__ v_usd v_usd_float = true.
Proof.
  repeat (split; [reflexivity|]).
  exact (eq_transitive v_usd v_other v_usd_float
           eq_refl eq_refl eq_refl eq_refl eq_refl).
Defined.

Lemma py_lt_irrefl (x : pynum) : py_lt x x = false.
Proof. unfold py_lt. rewrite num_compare_refl. now destruct (is_nan x). Qed.

Lemma py_gt_irrefl (x : pynum) : py_gt x x = false.
Proof. unfold py_gt. rewrite num_compare_refl. now destruct (is_nan x). Qed.

Lemma py_lt_asym (x y : pynum) : py_lt x y = true -> py_lt y x = false.
Proof.
  unfold py_lt. rewrite (num_compare_antisym x y).
  destruct (num_compare x y) as [[]|]; simpl; congruence.
Qed.

Lemma py_gt_asym (x y : pynum) : py_gt x y = true -> py_gt y x = false.
Proof.
  unfold py_gt. rewrite (num_compare_antisym x y).
  destruct (num_compare x y) as [[]|]; simpl; congruence.
Qed.

Lemma py_eq_le_both (x y : pynum) : py_eq x y = py_le x y && py_le y x.
Proof.
  unfold py_eq, py_le. rewrite (num_compare_antisym x y).
  destruct (num_compare x y) as [[]|]; reflexivity.
Qed.

Lemma py_eq_ge_both (x y : pynum) : py_eq x y = py_ge x y && py_ge y x.
Proof.
  unfold py_eq, py_ge. rewrite (num_compare_antisym x y).
  destruct (num_compare x y) as [[]|]; reflexivity.
Qed.

(** X3.  On records whose salary_from is an integer or a binary64 float,
    [<] is a strict order and [<=] is transitive and contains [<]: no
    record is below itself, [a < b] excludes [b < a], and both [<] and [<=]
    pass along a chain. *)
Theorem lt_strict_order (a b c : Vacancy)
  (Ha : valid_num (salary_from a) = true)
  (Hb : valid_num (salary_from b) = true)
  (Hc : valid_num (salary_from c) = true) :
  __lt__ a a = false /\
  (__lt__ a b = true -> __lt__ b a = false) /\
  (__lt__ a b = true -> __lt__ b c = true -> __lt__ a c = true) /\
  (__le__ a b = true -> __le__ b c = true -> __le__ a c = true) /\
  (__lt__ a b = true -> __le__ a b = true).
Proof.
  unfold __lt__, __le__. split; [apply py_lt_irrefl|].
  split; [apply py_lt_asym|].
  split; [apply py_lt_trans; assumption|].
  split; [apply py_le_trans; assumption|].
  unfold py_lt, py_le.
  destruct (num_compare (salary_from a) (salary_from b)) as [[]|]; congruence.
Qed.

Lemma lt_strict_order_witness :
  valid_num (salary_from v_low) = true /\
  valid_num (salary_from v_mid) = true /\
  valid_num (salary_from v_high) = true /\
  __lt__ v_low v_low = false /\
  (__lt__ v_low v_mid = true -> __lt__ v_mid v_low = false) /\
  (__lt__ v_low v_mid = true -> __lt__ v_mid v_high = true ->
   __lt__ v_low v_high = true) /\
  (__le__ v_low v_mid = true -> __le__ v_mid v_high = true ->
   __le__ v_low v_high = true) /\
  (__lt__ v_low v_mid = true -> __le__ v_low v_mid = true).
Proof.
  do 3 (split; [reflexivity|]).
  exact (lt_strict_order v_low v_mid v_high eq_refl eq_refl eq_refl).
Defined.

(** X4.  [a <= b] is the negation of [b < a], unless one of the two
    salary_from is a NaN float: then [a <= b] is false whatever [<] says
    (and [<] is false too). *)
Theorem le_is_not_lt_off_nan (a b : Vacancy) :
  __le__ a b
  = negb (is_nan (salary_from a)) && negb (is_nan (salary_from b))
    && negb (__lt__ b a) /\
  (is_nan (salary_from a) || is_nan (salary_from b) = true ->
   __lt__ a b = false /\ __lt__ b a = false /\
   __le__ a b = false /\ __le__ b a = false).
Proof.
  unfold __le__, __lt__. split; [apply py_le_not_lt|].
  intros H. rewrite !py_le_not_lt.
  pose proof (num_compare_nan (salary_from a) (salary_from b)) as N1.
  pose proof (num_compare_nan (salary_from b) (salary_from a)) as N2.
  unfold py_lt.
  destruct (num_compare (salary_from a) (salary_from b)),
           (num_compare (salary_from b) (salary_from a)),
           (is_nan (salary_from a)), (is_nan (salary_from b));
    simpl in *; try discriminate; repeat split; reflexivity.
Qed.

(** X5.  On records whose salary_to is an integer or a binary64 float,
    [>] is a strict order and [>=] is transitive and contains [>]. *)
Theorem gt_strict_order (a b c : Vacancy)
  (Ha : valid_num (salary_to a) = true)
  (Hb : valid_num (salary_to b) = true)
  (Hc : valid_num (salary_to c) = true) :
  __gt__ a a = false /\
  (__gt__ a b = true -> __gt__ b a = false) /\
  (__gt__ a b = true -> __gt__ b c = true -> __gt__ a c = true) /\
  (__ge__ a b = true -> __ge__ b c = true -> __ge__ a c = true) /\
  (__gt__ a b = true -> __ge__ a b = true).
Proof.
  unfold __gt__, __ge__. split; [apply py_gt_irrefl|].
  split; [apply py_gt_asym|].
  split; [apply py_gt_trans; assumption|].
  split; [apply py_ge_trans; assumption|].
  unfold py_gt, py_ge.
  destruct (num_compare (salary_to a) (salary_to b)) as [[]|]; congruence.
Qed.

Lemma gt_strict_order_witness :
  valid_num (salary_to v_high) = true /\
  valid_num (salary_to v_mid) = true /\
  valid_num (salary_to v_low) = true /\
  __gt__ v_high v_high = false /\
  (__gt__ v_high v_mid = true -> __gt__ v_mid v_high = false) /\
  (__gt__ v_high v_mid = true -> __gt__ v_mid v_low = true ->
   __gt__ v_high v_low = true) /\
  (__ge__ v_high v_mid = true -> __ge__ v_mid v_low = true ->
   __ge__ v_high v_low = true) /\
  (__gt__ v_high v_mid = true -> __ge__ v_high v_mid = true).
Proof.
  do 3 (split; [reflexivity|]).
  exact (gt_strict_order v_high v_mid v_low eq_refl eq_refl eq_refl).
Defined.

(** X6.  [a >= b] is the negation of [b > a], unless one of the two
    salary_to is a NaN float: then all of [>] and [>=] between the two
    records are false. *)
Theorem ge_is_not_gt_off_nan (a b : Vacancy) :
  __ge__ a b
  = negb (is_nan (salary_to a)) && negb (is_nan (salary_to b))
    && negb (__gt__ b a) /\
  (is_nan (salary_to a) || is_nan (salary_to b) = true ->
   __gt__ a b = false /\ __gt__ b a = false /\
   __ge__ a b = false /\ __ge__ b a = false).
Proof.
  unfold __ge__, __gt__. split; [apply py_ge_not_gt|].
  intros H. rewrite !py_ge_not_gt.
  pose proof (num_compare_nan (salary_to a) (salary_to b)) as N1.
  pose proof (num_compare_nan (salary_to b) (salary_to a)) as N2.
  unfold py_gt.
  destruct (num_compare (salary_to a) (salary_to b)),
           (num_compare (salary_to b) (salary_to a)),
           (is_nan (salary_to a)), (is_nan (salary_to b));
    simpl in *; try discriminate; repeat split; reflexivity.
Qed.

(** X7.  [a == b] holds exactly when [a <= b], [b <= a], [a >= b] and
    [b >= a] all hold and the two currencies are the same text; two equal
    records are in neither strict order, either way round. *)
Theorem eq_iff_le_ge_both_ways (a b : Vacancy) :
  (__eq__ a b = true <->
   __le__ a b = true /\ __le__ b a = true /\
   __ge__ a b = true /\ __ge__ b a = true /\
   salary_currency a = salary_currency b) /\
  (__eq__ a b = true ->
   __lt__ a b = false /\ __lt__ b a = false /\
   __gt__ a b = false /\ __gt__ b a = false).
Proof.
  unfold __eq__, __le__, __ge__, __lt__, __gt__. split.
  - rewrite py_eq_le_both, py_eq_ge_both, !andb_true_iff, String.eqb_eq. tauto.
  - rewrite !andb_true_iff. intros [[F T] _]. unfold py_eq, py_lt, py_gt in *.
    rewrite (num_compare_antisym (salary_from a) (salary_from b)).
    rewrite (num_compare_antisym (salary_to a) (salary_to b)).
    destruct (num_compare (salary_from a) (salary_from b)) as [[]|];
      try discriminate F;
      destruct (num_compare (salary_to a) (salary_to b)) as [[]|];
      try discriminate T; repeat split; reflexivity.
Qed.

(** ** Rendering *)


Lemma truncate_py_int (x : pynum) (n : Z) :
  truncate x = Some n -> py_int x = Ok n.
Proof.
  destruct x as [i|[s|s| |s m e]]; intros H; try discriminate H.
  - now inversion H.
  - now inversion H.
  - rewrite py_int_finite. now inversion H.
Qed.

Lemma truncate_none (x : pynum) : truncate x = None -> is_finite x = false.
Proof. destruct x as [i|[s|s| |s m e]]; intros H; now try discriminate H. Qed.

Lemma py_int_raises (x : pynum) (e : exn) :
  py_int x = Raise e -> rendering_error e.
Proof.
  unfold rendering_error.
  destruct x as [i|[s|s| |s m k]]; simpl; intros H; inversion H; tauto.
Qed.

Lemma fits_0 : fits 0 = true.
Proof. vm_compute. reflexivity. Qed.

Lemma py_str_fits (n : Z) : fits n = true -> py_str n = Ok (str_of_Z n).
Proof.
  unfold fits, py_str, int_max_str_digits. intros H.
  now rewrite (Z.leb_antisym (Z.abs n) (10 ^ 4300)), H.
Qed.

Lemma py_str_long (n : Z) :
  fits n = false ->
  py_str n = Raise (ValueError "Exceeds the limit (4300 digits) for integer string conversion; use sys.set_int_max_str_digits() to increase the limit").
Proof.
  unfold fits, py_str, int_max_str_digits. intros H.
  now rewrite (Z.leb_antisym (Z.abs n) (10 ^ 4300)), H.
Qed.

Lemma py_str_raises (n : Z) (e : exn) : py_str n = Raise e -> rendering_error e.
Proof.
  destruct (fits n) eqn:F.
  - rewrite (py_str_fits n F). discriminate.
  - rewrite (py_str_long n F). intros H. inversion H.
    unfold rendering_error. tauto.
Qed.


(** A number that equals 0 has integer part 0; a finite float never
    equals 0, the float zeros being apart. *)
Lemma py_eq_finite_nonzero (s : bool) (m : positive) (e : Z) :
  py_eq (NFloat (S754_finite s m e)) zero = false.
Proof.
  change (py_eq (NFloat (S754_finite s m e)) zero)
    with (match CompOpp <$>
                  Some (if 0 <=? e
                        then 0 ?= Z.shiftl (signed s m) e
                        else Z.shiftl 0 (- e) ?= signed s m) with
          | Some Eq => true
          | _ => false
          end).
  assert (N : signed s m <> 0) by (destruct s; discriminate).
  destruct (Z.leb_spec 0 e) as [H|H].
  - rewrite Z.shiftl_mul_pow2 by assumption.
    assert (P : 0 < 2 ^ e) by (apply Z.pow_pos_nonneg; lia).
    destruct (Z.compare_spec 0 (signed s m * 2 ^ e)) as [E|E|E];
      try reflexivity. exfalso. nia.
  - rewrite Z.shiftl_0_l.
    destruct (Z.compare_spec 0 (signed s m)) as [E|E|E]; try reflexivity.
    now elim N.
Qed.

Lemma py_eq_zero_truncate (x : pynum) :
  py_eq x zero = true -> truncate x = Some 0.
Proof.
  destruct x as [i|[s|s| |s m e]]; intros H.
  - unfold py_eq in H. simpl in H.
    destruct (Z.compare_spec (int_val i) 0) as [E|E|E]; try discriminate H.
    simpl. now rewrite E.
  - reflexivity.
  - destruct s; discriminate H.
  - discriminate H.
  - rewrite py_eq_finite_nonzero in H. discriminate H.
Qed.

Lemma py_eq_zero_renderable (x : pynum) :
  py_eq x zero = true -> renderable x = true.
Proof.
  intros H. unfold renderable. rewrite (py_eq_zero_truncate x H). apply fits_0.
Qed.

Lemma from_part_ok (v : Vacancy) (n : Z) :
  truncate (salary_from v) = Some n -> fits n = true ->
  from_part v = Ok (from_clause v n).
Proof.
  intros T F. unfold from_part, from_clause, py_ne.
  destruct (py_eq (salary_from v) zero); [reflexivity|].
  simpl. rewrite (truncate_py_int _ _ T). simpl. now rewrite (py_str_fits n F).
Qed.

Lemma to_part_ok (v : Vacancy) (n : Z) :
  truncate (salary_to v) = Some n -> fits n = true ->
  to_part v = Ok (to_clause v n).
Proof.
  intros T F. unfold to_part, to_clause, py_ne.
  destruct (py_eq (salary_to v) zero); [reflexivity|].
  simpl. rewrite (truncate_py_int _ _ T). simpl. now rewrite (py_str_fits n F).
Qed.

Lemma from_part_raises (v : Vacancy) (e : exn) :
  from_part v = Raise e -> rendering_error e.
Proof.
  unfold from_part. destruct (py_ne (salary_from v) zero); [|discriminate].
  destruct (py_int (salary_from v)) as [n|e'] eqn:I; simpl.
  - destruct (py_str n) as [t|e'] eqn:S; simpl; intros H; inversion H; subst.
    exact (py_str_raises n e S).
  - intros H. inversion H; subst. exact (py_int_raises _ e I).
Qed.

Lemma to_part_raises (v : Vacancy) (e : exn) :
  to_part v = Raise e -> rendering_error e.
Proof.
  unfold to_part. destruct (py_ne (salary_to v) zero); [|discriminate].
  destruct (py_int (salary_to v)) as [n|e'] eqn:I; simpl.
  - destruct (py_str n) as [t|e'] eqn:S; simpl; intros H; inversion H; subst.
    exact (py_str_raises n e S).
  - intros H. inversion H; subst. exact (py_int_raises _ e I).
Qed.

Lemma from_part_not_renderable (v : Vacancy) :
  renderable (salary_from v) = false -> exists e : exn, from_part v = Raise e.
Proof.
  intros R. unfold from_part, py_ne.
  destruct (py_eq (salary_from v) zero) eqn:Z0.
  - rewrite (py_eq_zero_renderable _ Z0) in R. discriminate R.
  - simpl. unfold renderable in R.
    destruct (truncate (salary_from v)) as [n|] eqn:T.
    + rewrite (truncate_py_int _ _ T). simpl. rewrite (py_str_long n R).
      eexists. reflexivity.
    + destruct (py_int_not_finite _ (truncate_none _ T)) as [e He].
      rewrite He. exists e. reflexivity.
Qed.

Lemma to_part_not_renderable (v : Vacancy) :
  renderable (salary_to v) = false -> exists e : exn, to_part v = Raise e.
Proof.
  intros R. unfold to_part, py_ne.
  destruct (py_eq (salary_to v) zero) eqn:Z0.
  - rewrite (py_eq_zero_renderable _ Z0) in R. discriminate R.
  - simpl. unfold renderable in R.
    destruct (truncate (salary_to v)) as [n|] eqn:T.
    + rewrite (truncate_py_int _ _ T). simpl. rewrite (py_str_long n R).
      eexists. reflexivity.
    + destruct (py_int_not_finite _ (truncate_none _ T)) as [e He].
      rewrite He. exists e. reflexivity.
Qed.

Lemma renderable_truncate (x : pynum) :
  renderable x = true -> exists n : Z, truncate x = Some n /\ fits n = true.
Proof.
  unfold renderable. destruct (truncate x) as [n|]; [|discriminate].
  intros H. now exists n.
Qed.

Lemma salary_range_ok (v : Vacancy) (nf nt : Z) :
  truncate (salary_from v) = Some nf -> fits nf = true ->
  truncate (salary_to v) = Some nt -> fits nt = true ->
  salary_range v = Ok (salary_phrase v nf nt).
Proof.
  intros Tf Ff Tt Ft. unfold salary_range, salary_phrase.
  destruct (py_eq (salary_from v) zero && py_eq (salary_to v) zero);
    [reflexivity|].
  now rewrite (from_part_ok v nf Tf Ff), (to_part_ok v nt Tt Ft).
Qed.

Lemma salary_range_raises (v : Vacancy) (e : exn) :
  salary_range v = Raise e -> rendering_error e.
Proof.
  unfold salary_range.
  destruct (py_eq (salary_from v) zero && py_eq (salary_to v) zero);
    [discriminate|].
  destruct (from_part v) as [fp|e'] eqn:F; simpl.
  - destruct (to_part v) as [tp|e'] eqn:T; simpl; intros H; inversion H; subst.
    exact (to_part_raises v e T).
  - intros H. inversion H; subst. exact (from_part_raises v e F).
Qed.

Lemma salary_range_not_renderable (v : Vacancy) :
  renderable (salary_from v) && renderable (salary_to v) = false ->
  exists e : exn, salary_range v = Raise e.
Proof.
  intros R. unfold salary_range.
  destruct (py_eq (salary_from v) zero && py_eq (salary_to v) zero) eqn:Z0.
  - apply andb_true_iff in Z0. destruct Z0 as [Zf Zt].
    rewrite (py_eq_zero_renderable _ Zf), (py_eq_zero_renderable _ Zt) in R.
    discriminate R.
  - destruct (renderable (salary_from v)) eqn:Rf.
    + simpl in R. destruct (renderable_truncate _ Rf) as [nf [Tf Ff]].
      rewrite (from_part_ok v nf Tf Ff). simpl.
      destruct (to_part_not_renderable v R) as [e He]. rewrite He.
      exists e. reflexivity.
    + destruct (from_part_not_renderable v Rf) as [e He]. rewrite He.
      exists e. reflexivity.
Qed.

Lemma format_int_fits (i : pyint) :
  fits_id i = true -> format_int i = Ok (id_text i).
Proof.
  destruct i as [[]|n]; try reflexivity. intros H. exact (py_str_fits n H).
Qed.

Lemma format_int_long (i : pyint) :
  fits_id i = false ->
  format_int i = Raise (ValueError "Exceeds the limit (4300 digits) for integer string conversion; use sys.set_int_max_str_digits() to increase the limit").
Proof.
  destruct i as [[]|n]; try discriminate. intros H. exact (py_str_long n H).
Qed.

Lemma str_renders (v : Vacancy) (nf nt : Z) :
  truncate (salary_from v) = Some nf -> fits nf = true ->
  truncate (salary_to v) = Some nt -> fits nt = true ->
  fits_id (id_num v) = true ->
  __str__ v = Ok (render v (id_text (id_num v)) (salary_phrase v nf nt)).
Proof.
  intros Tf Ff Tt Ft Fi. unfold __str__.
  rewrite (salary_range_ok v nf nt Tf Ff Tt Ft). simpl.
  now rewrite (format_int_fits _ Fi).
Qed.

(** C5, as amended.  For a record whose two salary bounds are finite
    numbers and whose id and truncated bounds have at most 4300 decimal
    digits, the rendering returns the seven lines, with this salary phrase:
    the no-information marker when both bounds equal 0; otherwise the from
    clause with the truncated salary_from unless it equals 0, then the to
    clause with the truncated salary_to unless it equals 0, then the
    currency, an omitted clause being the empty text. *)
Theorem str_salary_phrase (v : Vacancy) (Hv : constructed v)
  (Hfrom : renderable (salary_from v) = true)
  (Hto : renderable (salary_to v) = true)
  (Hid : fits_id (id_num v) = true) :
  exists nf nt : Z,
    truncate (salary_from v) = Some nf /\
    truncate (salary_to v) = Some nt /\
    __str__ v =
      Ok ("ID: " +:+ id_text (id_num v) +:+ nl +:+
          "Название вакансии: " +:+ vacancy_name v +:+ nl +:+
          "Название компании: " +:+ company_name v +:+ nl +:+
          "Описание: " +:+ description v +:+ nl +:+
          "Зарплата: " +:+
          (if py_eq (salary_from v) zero && py_eq (salary_to v) zero
           then "Информации нет"
           else (if py_eq (salary_from v) zero then ""
                 else "От " +:+ str_of_Z nf +:+ " ") +:+
                (if py_eq (salary_to v) zero then ""
                 else "До " +:+ str_of_Z nt +:+ " ") +:+
                salary_currency v) +:+ nl +:+
          "Местоположение: " +:+ area v +:+ nl +:+
          "URL: " +:+ url v).
Proof.
  destruct (renderable_truncate _ Hfrom) as [nf [Tf Ff]].
  destruct (renderable_truncate _ Hto) as [nt [Tt Ft]].
  exists nf, nt. split; [exact Tf|]. split; [exact Tt|].
  exact (str_renders v nf nt Tf Ff Tt Ft Hid).
Qed.

Lemma str_salary_phrase_witness :
  constructed v_usd /\
  renderable (salary_from v_usd) = true /\
  renderable (salary_to v_usd) = true /\
  fits_id (id_num v_usd) = true /\
  exists nf nt : Z,
    truncate (salary_from v_usd) = Some nf /\
    truncate (salary_to v_usd) = Some nt /\
    __str__ v_usd =
      Ok ("ID: " +:+ id_text (id_num v_usd) +:+ nl +:+
          "Название вакансии: " +:+ vacancy_name v_usd +:+ nl +:+
          "Название компании: " +:+ company_name v_usd +:+ nl +:+
          "Описание: " +:+ description v_usd +:+ nl +:+
          "Зарплата: " +:+
          (if py_eq (salary_from v_usd) zero && py_eq (salary_to v_usd) zero
           then "Информации нет"
           else (if py_eq (salary_from v_usd) zero then ""
                 else "От " +:+ str_of_Z nf +:+ " ") +:+
                (if py_eq (salary_to v_usd) zero then ""
                 else "До " +:+ str_of_Z nt +:+ " ") +:+
                salary_currency v_usd) +:+ nl +:+
          "Местоположение: " +:+ area v_usd +:+ nl +:+
          "URL: " +:+ url v_usd).
Proof.
  assert (Hv : constructed v_usd) by (exists args_usd; reflexivity).
  assert (Hf : renderable (salary_from v_usd) = true)
    by (vm_compute; reflexivity).
  assert (Ht : renderable (salary_to v_usd) = true)
    by (vm_compute; reflexivity).
  assert (Hi : fits_id (id_num v_usd) = true) by (vm_compute; reflexivity).
  split; [exact Hv|]. split; [exact Hf|]. split; [exact Ht|].
  split; [exact Hi|].
  exact (str_salary_phrase v_usd Hv Hf Ht Hi).
Defined.

(** C5 as stated fails: a record built with [salary_from = float("nan")]
    has no rendering, [int()] raises in the from clause; neither has a
    record whose id, or whose salary_from, is an integer of 4301 digits,
    which the f-string refuses to format. *)
Lemma str_raises_on_nan_and_long_int :
  (construct args_nan = Ok v_nan /\
   __str__ v_nan = Raise (ValueError "cannot convert float NaN to integer") /\
   (forall text : string, __str__ v_nan <> Ok text)) /\
  (construct args_long_id = Ok v_long_id /\
   is_finite (salary_from v_long_id) = true /\
   is_finite (salary_to v_long_id) = true /\
   __str__ v_long_id = Raise (ValueError "Exceeds the limit (4300 digits) for integer string conversion; use sys.set_int_max_str_digits() to increase the limit")) /\
  (construct args_long_salary = Ok v_long_salary /\
   is_finite (salary_from v_long_salary) = true /\
   is_finite (salary_to v_long_salary) = true /\
   __str__ v_long_salary = Raise (ValueError "Exceeds the limit (4300 digits) for integer string conversion; use sys.set_int_max_str_digits() to increase the limit")).
Proof.
  split; [|split].
  - split; [reflexivity|]. split; [vm_compute; reflexivity|].
    intros text H. vm_compute in H. discriminate H.
  - split; [reflexivity|]. split; [reflexivity|]. split; [reflexivity|].
    vm_compute. reflexivity.
  - split; [reflexivity|]. split; [reflexivity|]. split; [reflexivity|].
    vm_compute. reflexivity.
Qed.


(** ** The methods together *)

(** A successful call stores the coerced arguments, each of its type. *)
Lemma construct_getattr (args : Attributes) (v : Vacancy) :
  construct args = Ok v ->
  forall f : field,
    getattr v f = coerced args f /\
    isinstance (coerced args f) (declared_type f) = true.
Proof.
  rewrite construct_with_defaults. intros Hv f.
  pose proof (validate_first_failure (with_defaults args)) as H.
  destruct (first_failure attribute_order (with_defaults args)) eqn:E.
  - rewrite Hv in H. discriminate H.
  - destruct H as [v' [Hv' Hget]]. rewrite Hv in Hv'. inversion Hv'; subst v'.
    split.
    + now rewrite Hget, attr_with_defaults.
    + pose proof (List.find_none _ _ E f (in_attribute_order f)) as Hn.
      simpl in Hn. apply negb_false_iff in Hn. unfold well_typed in Hn.
      now rewrite attr_with_defaults in Hn.
Qed.

(** X8.  The rendering returns a text exactly when both salary bounds
    are finite numbers and the id and the truncated bounds have at most 4300
    decimal digits.  When it raises, the exception is the [ValueError] of
    [int()] on a NaN, the [OverflowError] of [int()] on an infinity or the
    [ValueError] of formatting an integer of more than 4300 digits, and
    nothing else. *)
Theorem str_defined_iff_renderable (v : Vacancy) :
  ((exists text : string, __str__ v = Ok text) <->
   renderable (salary_from v) = true /\ renderable (salary_to v) = true /\
   fits_id (id_num v) = true) /\
  (forall e : exn,
     __str__ v = Raise e ->
     e = ValueError "cannot convert float NaN to integer" \/
     e = OverflowError "cannot convert float infinity to integer" \/
     e = ValueError "Exceeds the limit (4300 digits) for integer string conversion; use sys.set_int_max_str_digits() to increase the limit").
Proof.
  split; [split|].
  - intros [text Ht].
    destruct (renderable (salary_from v) && renderable (salary_to v)) eqn:R.
    + apply andb_true_iff in R. destruct R as [Rf Rt].
      split; [exact Rf|]. split; [exact Rt|].
      destruct (fits_id (id_num v)) eqn:Fi; [reflexivity|].
      destruct (renderable_truncate _ Rf) as [nf [Tf Ff]].
      destruct (renderable_truncate _ Rt) as [nt [Tt Ft]].
      unfold __str__ in Ht.
      rewrite (salary_range_ok v nf nt Tf Ff Tt Ft) in Ht. simpl in Ht.
      rewrite (format_int_long _ Fi) in Ht. discriminate Ht.
    + destruct (salary_range_not_renderable v R) as [e He].
      unfold __str__ in Ht. rewrite He in Ht. discriminate Ht.
  - intros [Rf [Rt Fi]].
    destruct (renderable_truncate _ Rf) as [nf [Tf Ff]].
    destruct (renderable_truncate _ Rt) as [nt [Tt Ft]].
    eexists. exact (str_renders v nf nt Tf Ff Tt Ft Fi).
  - intros e. unfold __str__.
    destruct (salary_range v) as [t|e'] eqn:S; simpl.
    + destruct (fits_id (id_num v)) eqn:Fi.
      * rewrite (format_int_fits _ Fi). discriminate.
      * rewrite (format_int_long _ Fi). simpl. intros H. inversion H. tauto.
    + intros H. inversion H; subst. exact (salary_range_raises v e S).
Qed.

(** X9.  A call with both salary arguments null returns a record with
    both bounds 0 whose salary phrase is the no-information marker: the
    currency, given or defaulted, is not shown.  Its rendering is the seven
    lines with that marker when the id has at most 4300 digits, and the
    [ValueError] of formatting the id otherwise. *)
Theorem null_salary_renders_no_information (args : Attributes) (v : Vacancy)
  (Hv : construct args = Ok v)
  (Hfrom : attr_salary_from args = VNone)
  (Hto : attr_salary_to args = VNone) :
  salary_from v = NInt (PInt 0) /\ salary_to v = NInt (PInt 0) /\
  salary_range v = Ok "Информации нет" /\
  (fits_id (id_num v) = true ->
   __str__ v =
     Ok ("ID: " +:+ id_text (id_num v) +:+ nl +:+
         "Название вакансии: " +:+ vacancy_name v +:+ nl +:+
         "Название компании: " +:+ company_name v +:+ nl +:+
         "Описание: " +:+ description v +:+ nl +:+
         "Зарплата: Информации нет" +:+ nl +:+
         "Местоположение: " +:+ area v +:+ nl +:+
         "URL: " +:+ url v)) /\
  (fits_id (id_num v) = false ->
   __str__ v = Raise (ValueError "Exceeds the limit (4300 digits) for integer string conversion; use sys.set_int_max_str_digits() to increase the limit")).
Proof.
  destruct (construct_getattr args v Hv f_salary_from) as [Gf _].
  destruct (construct_getattr args v Hv f_salary_to) as [Gt _].
  unfold coerced in Gf, Gt. simpl in Gf, Gt. rewrite Hfrom in Gf. rewrite Hto in Gt.
  injection Gf as Ef. injection Gt as Et.
  assert (S : salary_range v = Ok "Информации нет")
    by (unfold salary_range; rewrite Ef, Et; reflexivity).
  split; [exact Ef|]. split; [exact Et|]. split; [exact S|].
  unfold __str__. rewrite S. simpl. split; intros Fi.
  - now rewrite (format_int_fits _ Fi).
  - now rewrite (format_int_long _ Fi).
Qed.

Lemma null_salary_renders_witness :
  construct args_null
  = Ok {| id_num := PInt 3;
          vacancy_name := "Intern";
          company_name := "Acme";
          description := "Learns";
          salary_from := NInt (PInt 0);
          salary_to := NInt (PInt 0);
          salary_currency := "Нет данных";
          area := "Kazan";
          url := "https://example.org/3" |} /\
  attr_salary_from args_null = VNone /\
  attr_salary_to args_null = VNone /\
  salary_range {| id_num := PInt 3;
                  vacancy_name := "Intern";
                  company_name := "Acme";
                  description := "Learns";
                  salary_from := NInt (PInt 0);
                  salary_to := NInt (PInt 0);
                  salary_currency := "Нет данных";
                  area := "Kazan";
                  url := "https://example.org/3" |}
  = Ok "Информации нет".
Proof.
  do 3 (split; [reflexivity|]).
  exact (proj1 (proj2 (proj2 (null_salary_renders_no_information
                                args_null _ eq_refl eq_refl eq_refl)))).
Defined.

(** X10.  The export determines the record: two records have the same
    dictionary exactly when they are the same record. *)
Theorem to_dict_injective (a b : Vacancy) : to_dict a = to_dict b <-> a = b.
Proof.
  split; [|intros H; now subst].
  intros H.
  assert (G : forall f : field, getattr a f = getattr b f).
  { intros f. pose proof (to_dict_lookup a f) as La.
    rewrite H, to_dict_lookup in La. now inversion La. }
  pose proof (G f_id_num) as H1. pose proof (G f_vacancy_name) as H2.
  pose proof (G f_company_name) as H3. pose proof (G f_description) as H4.
  pose proof (G f_salary_from) as H5. pose proof (G f_salary_to) as H6.
  pose proof (G f_salary_currency) as H7. pose proof (G f_area) as H8.
  pose proof (G f_url) as H9.
  destruct a, b; simpl in *.
  inversion H1; inversion H2; inversion H3; inversion H4; inversion H5;
    inversion H6; inversion H7; inversion H8; inversion H9; now subst.
Qed.

(** X11.  The export of a record returned by the constructor binds every
    field name to the coerced argument, which is never a null and has the
    field's type: a null salary argument is exported as 0 and a null
    currency as the sentinel text. *)
Theorem export_of_constructed (args : Attributes) (v : Vacancy)
  (Hv : construct args = Ok v) :
  forall f : field,
    to_dict v !! field_name f = Some (coerced args f) /\
    coerced args f <> VNone /\
    isinstance (coerced args f) (declared_type f) = true.
Proof.
  intros f. destruct (construct_getattr args v Hv f) as [G T].
  split; [now rewrite to_dict_lookup, G|]. split; [|exact T].
  intros E. rewrite E in T. destruct f; discriminate T.
Qed.

Lemma export_of_constructed_witness :
  construct args_null
  = Ok {| id_num := PInt 3;
          vacancy_name := "Intern";
          company_name := "Acme";
          description := "Learns";
          salary_from := NInt (PInt 0);
          salary_to := NInt (PInt 0);
          salary_currency := "Нет данных";
          area := "Kazan";
          url := "https://example.org/3" |} /\
  forall f : field,
    to_dict {| id_num := PInt 3;
               vacancy_name := "Intern";
               company_name := "Acme";
               description := "Learns";
               salary_from := NInt (PInt 0);
               salary_to := NInt (PInt 0);
               salary_currency := "Нет данных";
               area := "Kazan";
               url := "https://example.org/3" |} !! field_name f
    = Some (coerced args_null f) /\
    coerced args_null f <> VNone /\
    isinstance (coerced args_null f) (declared_type f) = true.
Proof.
  split; [reflexivity|].
  exact (export_of_constructed args_null _ eq_refl).
Defined.

(** X12.  A null argument and its default cannot be told apart: the call
    on the arguments with the defaults filled in behaves as the call on the
    arguments themselves, and filling in the defaults twice changes
    nothing. *)
Theorem defaults_idempotent (args : Attributes) :
  construct (with_defaults args) = construct args /\
  with_defaults (with_defaults args) = with_defaults args.
Proof.
  assert (I : with_defaults (with_defaults args) = with_defaults args).
  { destruct args as [a1 a2 a3 a4 a5 a6 a7 a8 a9].
    unfold with_defaults, coerced; simpl. destruct a5, a6, a7; reflexivity. }
  split; [|exact I].
  now rewrite (construct_with_defaults (with_defaults args)), I,
    <- construct_with_defaults.
Qed.

(** X13.  Among calls whose every argument is a null or a value of the
    field's type, the successful ones are exactly those whose nulls are all
    in salary_from, salary_to or salary_currency: a null id, title,
    employer, description, area or url makes the call raise. *)
Theorem null_only_in_nullable_fields (args : Attributes)
  (Hargs : forall f : field,
      attr args f = VNone \/ well_typed args f = true) :
  (exists v : Vacancy, construct args = Ok v) <->
  (forall f : field, attr args f = VNone -> nullable f = true).
Proof.
  split.
  - intros [v Hv] f Hf.
    destruct (construct_getattr args v Hv f) as [_ T].
    unfold coerced in T. rewrite Hf in T.
    destruct f; try reflexivity; discriminate T.
  - intros Hnull. rewrite construct_with_defaults.
    destruct (validate_well_typed (with_defaults args)) as [v [Hv _]].
    + intros f. unfold well_typed. rewrite attr_with_defaults.
      destruct (Hargs f) as [E|T].
      * pose proof (Hnull f E) as N. unfold coerced. rewrite E.
        destruct f; try reflexivity; discriminate N.
      * unfold well_typed in T. unfold coerced.
        destruct f, (attr args _); try exact T; discriminate T.
    + now exists v.
Qed.

Lemma null_only_in_nullable_fields_witness :
  (forall f : field,
      attr args_null f = VNone \/ well_typed args_null f = true) /\
  ((exists v : Vacancy, construct args_null = Ok v) <->
   (forall f : field, attr args_null f = VNone -> nullable f = true)).
Proof.
  assert (H : forall f : field,
             attr args_null f = VNone \/ well_typed args_null f = true).
  { intros []; simpl; first [ left; reflexivity | right; reflexivity ]. }
  split; [exact H | exact (null_only_in_nullable_fields args_null H)].
Defined.

(** X14.  Two records that compare equal render the same salary phrase,
    or raise the same exception, when their floats are binary64 values. *)
Theorem equal_records_same_salary_phrase (a b : Vacancy)
  (Ha : valid_salaries a = true) (Hb : valid_salaries b = true)
  (Heq : __eq__ a b = true) :
  salary_range a = salary_range b.
Proof.
  unfold valid_salaries in Ha, Hb.
  apply andb_true_iff in Ha, Hb. destruct Ha as [Ha1 Ha2], Hb as [Hb1 Hb2].
  unfold __eq__ in Heq. rewrite !andb_true_iff, String.eqb_eq in Heq.
  destruct Heq as [[F T] C].
  apply (py_eq_value _ _ Ha1 Hb1) in F. destruct F as [x [Fa Fb]].
  apply (py_eq_value _ _ Ha2 Hb2) in T. destruct T as [y [Ta Tb]].
  assert (Zf : py_eq (salary_from a) zero = py_eq (salary_from b) zero).
  { unfold py_eq.
    rewrite (num_compare_same_value (salary_from a) (salary_from b) zero);
      congruence || reflexivity. }
  assert (Zt : py_eq (salary_to a) zero = py_eq (salary_to b) zero).
  { unfold py_eq.
    rewrite (num_compare_same_value (salary_to a) (salary_to b) zero);
      congruence || reflexivity. }
  assert (If : py_int (salary_from a) = py_int (salary_from b))
    by (rewrite !py_int_value by assumption; now rewrite Fa, Fb).
  assert (It : py_int (salary_to a) = py_int (salary_to b))
    by (rewrite !py_int_value by assumption; now rewrite Ta, Tb).
  unfold salary_range, from_part, to_part, py_ne.
  now rewrite Zf, Zt, If, It, C.
Qed.

Lemma equal_records_same_salary_phrase_witness :
  valid_salaries v_usd = true /\ valid_salaries v_usd_float = true /\
  __eq__ v_usd v_usd_float = true /\
  salary_range v_usd = salary_range v_usd_float.
Proof.
  do 3 (split; [reflexivity|]).
  exact (equal_records_same_salary_phrase v_usd v_usd_float
           eq_refl eq_refl eq_refl).
Defined.
